(** * Hunting Party backend: filter, aggregate and compare pipeline

    A shallow embedding of [src/backend/api/main.py] (the FastAPI service that
    normalises one Offering Memorandum record, filters comparable listings,
    aggregates them and compares the subject property with the market),
    followed by the properties of its specification.

    Conventions of the embedding.
    - A Python [float] is a binary64 number: Rocq's primitive [float], whose
      operations are the IEEE 754 ones that CPython uses.
    - Fields are modelled at their declared types: [Optional[float]] is
      [option float], [Optional[int]] is [option Z], [int] is [Z].  Integer
      literals that the source stores in [float] fields (the built-in data)
      are written as the floats of the same value; all of them are below 2^53
      and therefore exact.
    - Python truthiness is written out: [None], [0], [0.0], [-0.0] and the
      empty string are false, every other number (NaN included) is true.
    - Exceptions are values of type [exn]; code that may raise returns
      [result A = exn + A].
    - A Python [str] is held in its UTF-8 encoding, byte by byte.
    - What the service calls but does not define (the [float] constructor on
      strings, the csv reader, UTF-8 decoding, [str] of an exception, the
      client of the hosted store) is collected in the class [Builtins], and
      so is the one point where interpreters differ: how [sum] adds floats. *)

From Stdlib Require Import ZArith List String Ascii Floats DecimalString Lia.
From stdpp Require Import base option list strings gmap.
Import ListNotations.

Set Warnings "-inexact-float".

Local Open Scope float_scope.

(* ====================================================================== *)
(** * Python numbers                                                       *)
(* ====================================================================== *)

Module Py.

(** [bool(x)] for a float: false exactly on [0.0] and [-0.0]. *)
Definition truthy (x : float) : bool := negb (x =? 0).

(** [bool(n)] for an int. *)
Definition truthyZ (n : Z) : bool := negb (n =? 0)%Z.

(** [float(n)] for an int [n]: the nearest binary64 number. *)
Definition float_of_Z (n : Z) : float :=
  SF2Prim (binary_normalize prec emax n 0 false).

Definition float_of_nat (n : nat) : float := float_of_Z (Z.of_nat n).

(** [sum(xs)] on floats, as CPython computes it up to version 3.11: the
    result starts as the integer 0 and every item is added from the left. *)
Definition sum_plain (xs : list float) : float := fold_left PrimFloat.add xs 0.

(** [math.isfinite]. *)
Definition is_finite (x : float) : bool := negb (is_nan x || is_infinity x).

(** The loop of [sum] from CPython 3.12 on, once the result is a float:
    Neumaier's compensated summation, with the running sum [f_result] and
    the compensation [c], which is added at the end when it is neither zero
    nor infinite nor NaN. *)
Fixpoint sum_compensated_loop (xs : list float) (f_result c : float) : float :=
  match xs with
  | [] => if negb (c =? 0) && is_finite c then f_result + c else f_result
  | x :: rest =>
      let t := f_result + x in
      let c := if abs x <=? abs f_result then c + ((f_result - t) + x)
               else c + ((x - t) + f_result) in
      sum_compensated_loop rest t c
  end.

(** [sum(xs)] on floats from CPython 3.12 on: the first item is added to the
    integer 0, the others by the compensated loop. *)
Definition sum_compensated (xs : list float) : float :=
  match xs with
  | [] => 0
  | x :: rest => sum_compensated_loop rest (0 + x) 0
  end.

(** [sum(xs)] on floats, by the summation that the interpreter runs. *)
Definition sum (compensated : bool) (xs : list float) : float :=
  if compensated then sum_compensated xs else sum_plain xs.

(** [sum(ns)] on ints is exact. *)
Definition sumZ (ns : list Z) : Z := fold_left Z.add ns 0%Z.

(** [sum(xs) / len(xs)] on floats: the length is converted to a float and
    the two are divided. *)
Definition mean (compensated : bool) (xs : list float) : float :=
  sum compensated xs / float_of_nat (length xs).

(** [a / b] on ints, for [b > 0]: the float nearest to the exact quotient
    (ties to even), and [OverflowError] ([None] here) when that is beyond
    the largest float.  The quotient is cut after more than 64 bits, with one
    more bit that records whether anything was cut off, and then rounded. *)
Definition truediv (a b : Z) : option float :=
  let shift := (64 + Z.log2_up b)%Z in
  let q := (Z.abs a * 2 ^ shift / b)%Z in
  let sticky := if (Z.abs a * 2 ^ shift mod b =? 0)%Z then 0%Z else 1%Z in
  let m := (2 * q + sticky)%Z in
  match binary_normalize prec emax (if (a <? 0)%Z then - m else m)%Z
          (- (shift + 1)) false with
  | S754_infinity _ => None
  | x => Some (SF2Prim x)
  end.

(** [sum(ns) / len(ns)] on ints, for a non-empty list. *)
Definition meanZ (ns : list Z) : option float :=
  truediv (sumZ ns) (Z.of_nat (length ns)).

(** Nearest integer to [m * 2^e], ties to even ([m >= 0]). *)
Definition round_half_even (m e : Z) : Z :=
  if (0 <=? e)%Z then (m * 2 ^ e)%Z
  else
    let d := (2 ^ (- e))%Z in
    let q := (m / d)%Z in
    match (2 * (m mod d) ?= d)%Z with
    | Lt => q
    | Gt => (q + 1)%Z
    | Eq => if Z.even q then q else (q + 1)%Z
    end.

Definition decimal (n : Z) : string := NilZero.string_of_uint (N.to_uint (Z.to_N n)).

Definition minus_sign (s : bool) : string := if s then "-" else "".

(** The format specification [.1f] of an f-string: the exact binary value
    rounded to one decimal, ties to even. *)
Definition format_1f (x : float) : string :=
  match Prim2SF x with
  | S754_nan => "nan"
  | S754_infinity s => minus_sign s +:+ "inf"
  | S754_zero s => minus_sign s +:+ "0.0"
  | S754_finite s m e =>
      let tenths := round_half_even (10 * Z.pos m) e in
      minus_sign s +:+ decimal (tenths / 10) +:+ "." +:+ decimal (tenths mod 10)
  end.

(** [int(x)] for a float: truncation towards zero; NaN and the infinities
    raise ([None] here, turned into an exception by the caller). *)
Definition int_of_float (x : float) : option Z :=
  match Prim2SF x with
  | S754_nan | S754_infinity _ => None
  | S754_zero _ => Some 0%Z
  | S754_finite s m e =>
      let a := if (0 <=? e)%Z then (Z.pos m * 2 ^ e)%Z else (Z.pos m / 2 ^ (- e))%Z in
      Some (if s then (- a)%Z else a)
  end.

(** [s.lower()] on the ASCII letters. *)
Definition lower_ascii (c : ascii) : ascii :=
  let n := nat_of_ascii c in
  if (65 <=? n)%nat && (n <=? 90)%nat then ascii_of_nat (n + 32) else c.

Fixpoint lower (s : string) : string :=
  match s with
  | EmptyString => EmptyString
  | String c r => String (lower_ascii c) (lower r)
  end.

(** [s.split(sep)] for a one-character separator: always at least one part. *)
Fixpoint split (sep : ascii) (s : string) : list string :=
  match s with
  | EmptyString => [EmptyString]
  | String c r =>
      if Ascii.eqb c sep then EmptyString :: split sep r
      else match split sep r with
           | p :: ps => String c p :: ps
           | [] => [String c EmptyString]
           end
  end.

Definition split_comma : string -> list string := split ",".

(** Texts are held in their UTF-8 encoding.  [str.isspace] accepts 29
    characters: the ASCII ones below, U+0085 and U+00A0 (two bytes each), and
    U+1680, U+2000 to U+200A, U+2028, U+2029, U+202F, U+205F and U+3000
    (three bytes each). *)
Definition is_space (c : ascii) : bool :=
  let n := nat_of_ascii c in
  (n =? 32)%nat || ((9 <=? n)%nat && (n <=? 13)%nat)
  || ((28 <=? n)%nat && (n <=? 31)%nat).

Definition two_byte_space (c d : ascii) : bool :=
  Ascii.eqb c "194" && (Ascii.eqb d "133" || Ascii.eqb d "160").

Definition three_byte_space (c d e : ascii) : bool :=
  (Ascii.eqb c "225" && Ascii.eqb d "154" && Ascii.eqb e "128")
  || (Ascii.eqb c "226" && Ascii.eqb d "128"
      && (((128 <=? nat_of_ascii e)%nat && (nat_of_ascii e <=? 138)%nat)
          || Ascii.eqb e "168" || Ascii.eqb e "169" || Ascii.eqb e "175"))
  || (Ascii.eqb c "226" && Ascii.eqb d "129" && Ascii.eqb e "159")
  || (Ascii.eqb c "227" && Ascii.eqb d "128" && Ascii.eqb e "128").

(** [s.lstrip()]: the leading whitespace characters are dropped one by one. *)
Fixpoint lstrip (s : string) : string :=
  match s with
  | String c r =>
      if is_space c then lstrip r
      else
        match r with
        | String d r' =>
            if two_byte_space c d then lstrip r'
            else
              match r' with
              | String e r'' => if three_byte_space c d e then lstrip r'' else s
              | EmptyString => s
              end
        | EmptyString => s
        end
  | EmptyString => EmptyString
  end.

(** A text of whitespace characters only. *)
Definition is_blank (s : string) : bool := String.eqb (lstrip s) "".

(** [s.rstrip()]: the text is cut where nothing but whitespace follows.
    Inside a character the rest never reads as whitespace, because no
    encoding of a whitespace character starts with a continuation byte. *)
Fixpoint rstrip (s : string) : string :=
  match s with
  | EmptyString => EmptyString
  | String c r => if is_blank s then EmptyString else String c (rstrip r)
  end.

(** [s.strip()]. *)
Definition strip (s : string) : string := rstrip (lstrip s).

End Py.


(* ====================================================================== *)
(** * Exceptions                                                           *)
(* ====================================================================== *)

(** The built-in exceptions that the modelled code can meet. *)
Inductive error_kind :=
| ValueError | TypeError | AttributeError | OverflowError
| StopIteration | UnicodeDecodeError | CsvError.

(** [HTTPException(status_code=..., detail=...)] of the web framework, and
    the built-in exceptions.  Every one of them derives from [Exception]. *)
Inductive exn :=
| HTTPException (status_code : Z) (detail : string)
| Raised (kind : error_kind).

Inductive result (A : Type) :=
| Ok (a : A)
| Raise (e : exn).
Arguments Ok {A} a.
Arguments Raise {A} e.

#[global] Instance result_ret : MRet result := fun A a => Ok a.
#[global] Instance result_bind : MBind result := fun A B k m =>
  match m with Ok a => k a | Raise e => Raise e end.

(** [try: body except Exception as e: handler(e)]. *)
Definition try_except {A} (body : result A) (handler : exn -> result A) : result A :=
  match body with Ok a => Ok a | Raise e => handler e end.

(** The value that a computation returns, if it returns. *)
Definition to_option {A} (m : result A) : option A :=
  match m with Ok a => Some a | Raise _ => None end.

(* ====================================================================== *)
(** * Data models                                                          *)
(* ====================================================================== *)

Module PropertySummary.
(** [address] is whatever the row holds: a short csv row leaves [None]. *)
Record t := mk {
  address : option string;
  opportunity_zone : bool;
  cap_rate : float;
  rentable_sqft : Z;
  avg_sqft_per_unit : float;
  asking_price : float;
  lot_size_acres : float;
  total_units : Z }.
End PropertySummary.

Module UnitRentData.
Record t := mk {
  one_bed : option float;
  two_bed : option float;
  three_bed : option float;
  four_bed : option float }.
End UnitRentData.

Module FinancialMetrics.
Record t := mk {
  noi : float;
  cap_rate : float;
  price_per_sqft : float;
  price_per_unit : float;
  price_per_acre : float }.
End FinancialMetrics.

Module VacancyEGIData.
Record t := mk {
  vacancy_rate : float;
  gross_potential_rent : float;
  effective_gross_income : float }.
End VacancyEGIData.

Module CompProperty.
Record t := mk {
  source : string;
  address : string;
  price : option float;
  units : option Z;
  cap_rate : option float;
  price_per_unit : option float;
  price_per_sqft : option float;
  price_per_acre : option float;
  noi : option float;
  distance_miles : option float;
  unit_rents : option UnitRentData.t }.
End CompProperty.

Module CompStats.
(** Four of the averages are declared [float], three [Optional[float]]. *)
Record t := mk {
  total_scraped : Z;
  filtered_count : Z;
  avg_price : float;
  avg_units : float;
  avg_cap_rate : option float;
  avg_price_per_unit : float;
  avg_price_per_sqft : float;
  avg_price_per_acre : option float;
  avg_noi : option float;
  avg_unit_rents : option UnitRentData.t }.
End CompStats.

Module ComparisonResult.
Record t := mk {
  metric_name : string;
  om_value : option float;
  market_value : option float;
  deviation_percent : option float;
  deviation_comment : string }.
End ComparisonResult.

Module CompFilterRequest.
Record t := mk {
  price_min : option float;
  price_max : option float;
  units_min : option Z;
  units_max : option Z;
  distance_miles : option float;
  cap_rate_min : option float;
  cap_rate_max : option float;
  price_per_unit_min : option float;
  price_per_unit_max : option float;
  price_per_sqft_min : option float;
  price_per_sqft_max : option float;
  price_per_acre_min : option float;
  price_per_acre_max : option float }.

(** The request body with every bound left at its default [None]. *)
Definition unset : t :=
  mk None None None None None None None None None None None None None.
End CompFilterRequest.

(** The dictionary that [parse_csv_om_data] and [get_mock_om_data] return. *)
Module OMData.
Record t := mk {
  property_summary : PropertySummary.t;
  unit_rents : UnitRentData.t;
  financials : FinancialMetrics.t;
  vacancy_egi : VacancyEGIData.t }.
End OMData.

(** The dictionary [om_metrics] that [analyze_om] hands to
    [calculate_comparisons]. *)
Module OMMetrics.
Record t := mk {
  price_per_unit : float;
  price_per_sqft : float;
  cap_rate : float;
  unit_rents : UnitRentData.t }.
End OMMetrics.

Module AnalysisResponse.
Record t := mk {
  property_summary : PropertySummary.t;
  unit_rents : UnitRentData.t;
  financials : FinancialMetrics.t;
  vacancy_egi : VacancyEGIData.t;
  crexi_comps : CompStats.t;
  realtor_comps : CompStats.t;
  comparisons : list ComparisonResult.t;
  raw_crexi_comps : list CompProperty.t;
  raw_realtor_comps : list CompProperty.t }.
End AnalysisResponse.

(** A row of [csv.DictReader]: column name to cell; the cell of a column that
    a short row does not reach is [None]. *)
Abbreviation row := (gmap string (option string)).

(** A value of a store record: null, a number or a string. *)
Inductive json_value :=
| JNull
| JNumber (x : float)
| JString (s : string).

(** A record of the [market_metrics] table. *)
Abbreviation market_record := (gmap string json_value).

(** What the service calls but does not define. *)
Class Builtins := {
  (** [float(s)] on a string; [None] when it raises [ValueError]. *)
  float_of_str : string -> option float;
  (** [next(csv.DictReader(io.StringIO(text)))]: the first data row, or the
      exception raised when there is none or the text is not csv. *)
  csv_first_row : string -> result row;
  (** [content.decode('utf-8')]; [None] when it raises. *)
  decode_utf8 : string -> option string;
  (** [str(e)]. *)
  str_of_exn : exn -> string;
  (** The global [supabase] client, [None] when the environment does not
      configure it.  The client answers the query
      [table("market_metrics").select("*").eq("provider", p).eq("geography", g)
       .eq("asset_type", a).execute()] with the records of [response.data], or
      raises. *)
  supabase : option (string -> string -> string -> result (list market_record));
  (** How the interpreter's [sum] adds floats: with Neumaier's compensation
      (CPython 3.12 and later) or plainly from the left (CPython up to
      3.11). *)
  compensated_sum : bool }.

(* ====================================================================== *)
(** * CSV processing and data services                                     *)
(* ====================================================================== *)

Section Normalizer.
Context `{Builtins}.

(** [float(row.get(k, 0))]: the default is the integer 0; a [None] cell
    makes [float] raise [TypeError], an unreadable string [ValueError]. *)
Definition float_field (r : row) (k : string) : result float :=
  match r !! k with
  | None => Ok 0
  | Some None => Raise (Raised TypeError)
  | Some (Some s) =>
      match float_of_str s with
      | Some x => Ok x
      | None => Raise (Raised ValueError)
      end
  end.

(** [int(float(row.get(k, 0)))]. *)
Definition int_field (r : row) (k : string) : result Z :=
  x ← float_field r k;
  match Py.int_of_float x with
  | Some n => Ok n
  | None => Raise (Raised (if is_nan x then ValueError else OverflowError))
  end.

(** Truthiness of [row.get(k)]: a missing column, a [None] cell and the
    empty string are false. *)
Definition cell_truthy (c : option (option string)) : bool :=
  match c with
  | Some (Some s) => negb (String.eqb s "")
  | _ => false
  end.

(** [float(row.get(k, 0)) if row.get(k) else None]. *)
Definition rent_field (r : row) (k : string) : result (option float) :=
  if cell_truthy (r !! k) then x ← float_field r k; Ok (Some x)
  else Ok None.

(** [row.get('opportunity_zone', '').lower() == 'yes']. *)
Definition opportunity_zone_field (r : row) : result bool :=
  match r !! "opportunity_zone"%string with
  | None => Ok (String.eqb (Py.lower "") "yes")
  | Some None => Raise (Raised AttributeError)
  | Some (Some s) => Ok (String.eqb (Py.lower s) "yes")
  end.

(** The body of [parse_csv_om_data] after [row = next(reader)]. *)
Definition parse_row (r : row) : result OMData.t :=
  let address := default (Some ""%string) (r !! "address"%string) in
  opportunity_zone ← opportunity_zone_field r;
  cap_rate ← float_field r "cap_rate";
  rentable_sqft ← int_field r "rentable_sqft";
  avg_sqft_per_unit ← float_field r "avg_sqft_per_unit";
  asking_price ← float_field r "asking_price";
  lot_size_acres ← float_field r "lot_size_acres";
  total_units ← int_field r "total_units";
  let property_summary :=
    PropertySummary.mk address opportunity_zone cap_rate rentable_sqft
      avg_sqft_per_unit asking_price lot_size_acres total_units in
  one_bed ← rent_field r "one_bed_rent";
  two_bed ← rent_field r "two_bed_rent";
  three_bed ← rent_field r "three_bed_rent";
  four_bed ← rent_field r "four_bed_rent";
  let unit_rents := UnitRentData.mk one_bed two_bed three_bed four_bed in
  noi ← float_field r "noi";
  cap_rate' ← float_field r "cap_rate";
  price_per_sqft ← float_field r "price_per_sqft";
  price_per_unit ← float_field r "price_per_unit";
  price_per_acre ← float_field r "price_per_acre";
  let financials :=
    FinancialMetrics.mk noi cap_rate' price_per_sqft price_per_unit price_per_acre in
  vacancy_rate ← float_field r "vacancy_rate";
  gross_potential_rent ← float_field r "gross_potential_rent";
  let vacancy_egi :=
    VacancyEGIData.mk vacancy_rate gross_potential_rent
      (gross_potential_rent * (1 - vacancy_rate)) in
  Ok (OMData.mk property_summary unit_rents financials vacancy_egi).

Definition parse_csv_om_data (csv_content : string) : result OMData.t :=
  try_except
    (r ← csv_first_row csv_content; parse_row r)
    (fun e => Raise (HTTPException 400 ("Error parsing CSV: " +:+ str_of_exn e))).

End Normalizer.

(* ====================================================================== *)
(** * Market data gateway                                                  *)
(* ====================================================================== *)

Section Gateway.
Context `{Builtins}.

(** [float(record.get('value', 0))]. *)
Definition record_value (record : market_record) : result float :=
  match record !! "value"%string with
  | None => Ok 0
  | Some (JNumber x) => Ok x
  | Some (JString s) =>
      match float_of_str s with
      | Some x => Ok x
      | None => Raise (Raised ValueError)
      end
  | Some JNull => Raise (Raised TypeError)
  end.

(** [record.get(key) == name]. *)
Definition record_is (record : market_record) (key name : string) : bool :=
  match record !! key with
  | Some (JString s) => String.eqb s name
  | _ => false
  end.

(** [float(record.get('value', 0)) if cond else None]. *)
Definition value_if (cond : bool) (record : market_record) : result (option float) :=
  if cond then x ← record_value record; Ok (Some x) else Ok None.

Definition crexi_comp (geography : string) (record : market_record)
    : result CompProperty.t :=
  price ← value_if (record_is record "metric_name" "asking_price") record;
  cap_rate ← value_if (record_is record "metric_name" "cap_rate_pct") record;
  price_per_unit ← value_if (record_is record "metric_name" "price_per_unit_usd") record;
  price_per_sqft ← value_if (record_is record "metric_name" "price_per_sf_usd") record;
  price_per_acre ← value_if (record_is record "metric_name" "price_per_acre_usd") record;
  noi ← value_if (record_is record "metric_name" "noi_usd") record;
  Ok (CompProperty.mk "crexi" ("Market data for " +:+ geography) price None cap_rate
        price_per_unit price_per_sqft price_per_acre noi None None).

Definition rent_if (unit_type : string) (record : market_record) : result (option float) :=
  value_if (record_is record "metric_name" "avg_rent_usd_month"
            && record_is record "unit_type" unit_type) record.

Definition realtor_comp (geography : string) (record : market_record)
    : result CompProperty.t :=
  one_bed ← rent_if "1BR" record;
  two_bed ← rent_if "2BR" record;
  three_bed ← rent_if "3BR" record;
  four_bed ← rent_if "4BR" record;
  Ok (CompProperty.mk "realtor" ("Market data for " +:+ geography) None None None
        None None None None None
        (Some (UnitRentData.mk one_bed two_bed three_bed four_bed))).

(** The loops [for record in response.data: comps.append(...)]. *)
Fixpoint for_each {A B} (f : A -> result B) (xs : list A) : result (list B) :=
  match xs with
  | [] => Ok []
  | x :: rest => y ← f x; ys ← for_each f rest; Ok (y :: ys)
  end.

(** Both lists of the store for a geography; two empty lists when there is
    no client or anything raises. *)
Definition get_supabase_market_data (geography : string) (asset_type : string)
    : list CompProperty.t * list CompProperty.t :=
  match supabase with
  | None => ([], [])
  | Some query =>
      match
        (crexi_data ← query "CREXi"%string geography asset_type;
         crexi_comps ← for_each (crexi_comp geography) crexi_data;
         realtor_data ← query "Realtor.com"%string geography asset_type;
         realtor_comps ← for_each (realtor_comp geography) realtor_data;
         Ok (crexi_comps, realtor_comps))
      with
      | Ok market_data => market_data
      | Raise _ => ([], [])
      end
  end.

End Gateway.

Definition get_mock_om_data : OMData.t :=
  OMData.mk
    (PropertySummary.mk (Some "123 Main St, Tampa, FL"%string) false 5.4 108750
       920 34250000 1.85 120)
    (UnitRentData.mk (Some 1650) (Some 2100) (Some 2450) (Some 2800))
    (FinancialMetrics.mk 1890000 5.4 315 285417 18513514)
    (VacancyEGIData.mk 0.06 2300000 2162000).

Definition get_mock_crexi_comps : list CompProperty.t :=
  [ CompProperty.mk "crexi" "456 Oak St, Tampa, FL" (Some 33500000) (Some 115%Z)
      (Some 5.5) (Some 291304) (Some 312) (Some 18200000) (Some 1842500)
      (Some 0.8) None;
    CompProperty.mk "crexi" "789 Pine Ave, Tampa, FL" (Some 32000000) (Some 108%Z)
      (Some 5.3) (Some 296296) (Some 318) (Some 19000000) (Some 1696000)
      (Some 1.2) None;
    CompProperty.mk "crexi" "321 Elm Dr, Tampa, FL" (Some 35500000) (Some 125%Z)
      (Some 5.4) (Some 284000) (Some 309) (Some 18800000) (Some 1917000)
      (Some 0.5) None ].

Definition get_mock_realtor_comps : list CompProperty.t :=
  [ CompProperty.mk "realtor" "654 Maple St, Tampa, FL" None None None None None
      None None (Some 0.9)
      (Some (UnitRentData.mk (Some 1525) (Some 1943) (Some 2263) (Some 2538)));
    CompProperty.mk "realtor" "987 Cedar Rd, Tampa, FL" None None None None None
      None None (Some 1.1)
      (Some (UnitRentData.mk (Some 1580) (Some 1980) (Some 2320) (Some 2580)));
    CompProperty.mk "realtor" "147 Birch Ln, Tampa, FL" None None None None None
      None None (Some 0.7)
      (Some (UnitRentData.mk (Some 1480) (Some 1920) (Some 2240) (Some 2520))) ].

(** [parts = address.split(',')]; the last two parts, stripped, when there
    are at least two. *)
Definition extract_geography_from_address (address : string) : string :=
  match rev (Py.split_comma address) with
  | last :: before_last :: _ => Py.strip before_last +:+ ", " +:+ Py.strip last
  | _ => "Tampa, FL"
  end.

(* ====================================================================== *)
(** * Filter and aggregate engine                                          *)
(* ====================================================================== *)

(** [bound and value and value < bound], with Python's short-circuit [and]:
    the comparison is reached only when both operands are truthy. *)
Definition below_min (bound value : option float) : bool :=
  match bound with
  | None => false
  | Some b =>
      Py.truthy b &&
      match value with
      | None => false
      | Some v => Py.truthy v && (v <? b)
      end
  end.

(** [bound and value and value > bound]. *)
Definition above_max (bound value : option float) : bool :=
  match bound with
  | None => false
  | Some b =>
      Py.truthy b &&
      match value with
      | None => false
      | Some v => Py.truthy v && (b <? v)
      end
  end.

(** The same two tests on the integer fields. *)
Definition below_minZ (bound value : option Z) : bool :=
  match bound with
  | None => false
  | Some b =>
      Py.truthyZ b &&
      match value with
      | None => false
      | Some v => Py.truthyZ v && (v <? b)%Z
      end
  end.

Definition above_maxZ (bound value : option Z) : bool :=
  match bound with
  | None => false
  | Some b =>
      Py.truthyZ b &&
      match value with
      | None => false
      | Some v => Py.truthyZ v && (b <? v)%Z
      end
  end.

(** The body of the loop of [apply_filters]: [false] when one of the thirteen
    tests reaches its [continue], [true] when the comparable is appended. *)
Definition reaches_append (filters : CompFilterRequest.t) (comp : CompProperty.t) : bool :=
  if below_min filters.(CompFilterRequest.price_min) comp.(CompProperty.price) then false
  else if above_max filters.(CompFilterRequest.price_max) comp.(CompProperty.price) then false
  else if below_minZ filters.(CompFilterRequest.units_min) comp.(CompProperty.units) then false
  else if above_maxZ filters.(CompFilterRequest.units_max) comp.(CompProperty.units) then false
  else if above_max filters.(CompFilterRequest.distance_miles) comp.(CompProperty.distance_miles) then false
  else if below_min filters.(CompFilterRequest.cap_rate_min) comp.(CompProperty.cap_rate) then false
  else if above_max filters.(CompFilterRequest.cap_rate_max) comp.(CompProperty.cap_rate) then false
  else if below_min filters.(CompFilterRequest.price_per_unit_min) comp.(CompProperty.price_per_unit) then false
  else if above_max filters.(CompFilterRequest.price_per_unit_max) comp.(CompProperty.price_per_unit) then false
  else if below_min filters.(CompFilterRequest.price_per_sqft_min) comp.(CompProperty.price_per_sqft) then false
  else if above_max filters.(CompFilterRequest.price_per_sqft_max) comp.(CompProperty.price_per_sqft) then false
  else if below_min filters.(CompFilterRequest.price_per_acre_min) comp.(CompProperty.price_per_acre) then false
  else if above_max filters.(CompFilterRequest.price_per_acre_max) comp.(CompProperty.price_per_acre) then false
  else true.

(** The loop, threading the accumulator [filtered_comps]. *)
Fixpoint apply_filters_loop (comps : list CompProperty.t) (filters : CompFilterRequest.t)
    (filtered_comps : list CompProperty.t) : list CompProperty.t :=
  match comps with
  | [] => filtered_comps
  | comp :: rest =>
      apply_filters_loop rest filters
        (if reaches_append filters comp then filtered_comps ++ [comp]
         else filtered_comps)
  end.

Definition apply_filters (comps : list CompProperty.t) (filters : CompFilterRequest.t)
    : list CompProperty.t :=
  apply_filters_loop comps filters [].

Section Aggregate.
Context `{Builtins}.

(** [sum(xs) / len(xs) if xs else 0] and [... if xs else None] on floats. *)
Definition mean_or_zero (xs : list float) : float :=
  match xs with [] => 0 | _ => Py.mean compensated_sum xs end.

Definition mean_or_none (xs : list float) : option float :=
  match xs with [] => None | _ => Some (Py.mean compensated_sum xs) end.

(** [sum(ns) / len(ns) if ns else 0] on ints: the division raises
    [OverflowError] when the quotient is beyond the floats. *)
Definition meanZ_or_zero (ns : list Z) : result float :=
  match ns with
  | [] => Ok 0
  | _ =>
      match Py.meanZ ns with
      | Some x => Ok x
      | None => Raise (Raised OverflowError)
      end
  end.

(** The comprehensions [[c.f for c in comps if c.f is not None]] are [omap].
    Of the averages only [avg_units], a division of ints, can raise. *)
Definition calculate_comp_stats (comps : list CompProperty.t) : result CompStats.t :=
  match comps with
  | [] => Ok (CompStats.mk 0 0 0 0 None 0 0 None None None)
  | _ =>
      let prices := omap CompProperty.price comps in
      let units := omap CompProperty.units comps in
      let cap_rates := omap CompProperty.cap_rate comps in
      let price_per_units := omap CompProperty.price_per_unit comps in
      let price_per_sqfts := omap CompProperty.price_per_sqft comps in
      let price_per_acres := omap CompProperty.price_per_acre comps in
      let nois := omap CompProperty.noi comps in
      let unit_rents := omap CompProperty.unit_rents comps in
      let avg_unit_rents :=
        match unit_rents with
        | [] => None
        | _ =>
            let one_beds := omap UnitRentData.one_bed unit_rents in
            let two_beds := omap UnitRentData.two_bed unit_rents in
            let three_beds := omap UnitRentData.three_bed unit_rents in
            let four_beds := omap UnitRentData.four_bed unit_rents in
            Some (UnitRentData.mk (mean_or_none one_beds) (mean_or_none two_beds)
                    (mean_or_none three_beds) (mean_or_none four_beds))
        end in
      let avg_price := mean_or_zero prices in
      avg_units ← meanZ_or_zero units;
      Ok (CompStats.mk
            (Z.of_nat (length comps))
            (Z.of_nat (length comps))
            avg_price
            avg_units
            (mean_or_none cap_rates)
            (mean_or_zero price_per_units)
            (mean_or_zero price_per_sqfts)
            (mean_or_none price_per_acres)
            (mean_or_none nois)
            avg_unit_rents)
  end.

End Aggregate.

(* ====================================================================== *)
(** * Comparison calculator                                                *)
(* ====================================================================== *)

(** [f"{'+' if deviation > 0 else ''}{deviation:.1f}"] followed by the unit
    and the provider. *)
Definition sign_prefix (deviation : float) : string :=
  if 0 <? deviation then "+" else "".

Definition comment (deviation : float) (tail : string) : string :=
  sign_prefix deviation +:+ Py.format_1f deviation +:+ tail.

(** [((om - market) / market) * 100]. *)
Definition percent_deviation (om market : float) : float :=
  ((om - market) / market) * 100.

(** [om - market]. *)
Definition point_deviation (om market : float) : float := om - market.

Definition percent_result (name : string) (om market : float) (tail : string)
    : ComparisonResult.t :=
  let deviation := percent_deviation om market in
  ComparisonResult.mk name (Some om) (Some market) (Some deviation)
    (comment deviation tail).

Definition point_result (name : string) (om market : float) (tail : string)
    : ComparisonResult.t :=
  let deviation := point_deviation om market in
  ComparisonResult.mk name (Some om) (Some market) (Some deviation)
    (comment deviation tail).

(** The five blocks of [calculate_comparisons], each the list that it appends
    to [comparisons]: one result or nothing. *)
Definition price_per_unit_block (om : OMMetrics.t) (crexi : CompStats.t)
    : list ComparisonResult.t :=
  if 0 <? crexi.(CompStats.avg_price_per_unit)
  then [percent_result "Price per Unit" om.(OMMetrics.price_per_unit)
          crexi.(CompStats.avg_price_per_unit) "% vs CREXi market"]
  else [].

Definition price_per_sqft_block (om : OMMetrics.t) (crexi : CompStats.t)
    : list ComparisonResult.t :=
  if 0 <? crexi.(CompStats.avg_price_per_sqft)
  then [percent_result "Price per SqFt" om.(OMMetrics.price_per_sqft)
          crexi.(CompStats.avg_price_per_sqft) "% vs CREXi market"]
  else [].

Definition cap_rate_block (om : OMMetrics.t) (crexi : CompStats.t)
    : list ComparisonResult.t :=
  match crexi.(CompStats.avg_cap_rate) with
  | Some market =>
      if Py.truthy market && Py.truthy om.(OMMetrics.cap_rate)
      then [point_result "Cap Rate" om.(OMMetrics.cap_rate) market "pp vs CREXi market"]
      else []
  | None => []
  end.

(** [if om_rent and market_rent: ...] inside [if realtor_stats.avg_unit_rents:]. *)
Definition rent_block (name : string) (om_rent market_rent : option float)
    : list ComparisonResult.t :=
  match om_rent, market_rent with
  | Some o, Some m =>
      if Py.truthy o && Py.truthy m
      then [percent_result name o m "% vs Realtor market"]
      else []
  | _, _ => []
  end.

Definition calculate_comparisons (om_data : OMMetrics.t)
    (crexi_stats realtor_stats : CompStats.t) : list ComparisonResult.t :=
  let comparisons := [] in
  let comparisons := comparisons ++ price_per_unit_block om_data crexi_stats in
  let comparisons := comparisons ++ price_per_sqft_block om_data crexi_stats in
  let comparisons := comparisons ++ cap_rate_block om_data crexi_stats in
  match realtor_stats.(CompStats.avg_unit_rents) with
  | Some avg_unit_rents =>
      let comparisons := comparisons ++
        rent_block "1BR Rent" om_data.(OMMetrics.unit_rents).(UnitRentData.one_bed)
          avg_unit_rents.(UnitRentData.one_bed) in
      let comparisons := comparisons ++
        rent_block "2BR Rent" om_data.(OMMetrics.unit_rents).(UnitRentData.two_bed)
          avg_unit_rents.(UnitRentData.two_bed) in
      comparisons
  | None => comparisons
  end.

(* ====================================================================== *)
(** * The analyze endpoint                                                 *)
(* ====================================================================== *)

Section Endpoint.
Context `{Builtins}.

(** [analyze_om(filters, om_csv)]: [om_csv] is the raw content of the
    uploaded file, [None] when no file was sent.  The write to the
    persistence sink ([store_om_data_in_supabase]) swallows its own errors
    and returns nothing, so it leaves no trace here. *)
Definition analyze_om (filters : CompFilterRequest.t) (om_csv : option string)
    : result AnalysisResponse.t :=
  try_except
    (om_data ←
       match om_csv with
       | Some csv_content =>
           csv_text ← match decode_utf8 csv_content with
                       | Some t => Ok t
                       | None => Raise (Raised UnicodeDecodeError)
                       end;
           parse_csv_om_data csv_text
       | None => Ok get_mock_om_data
       end;
     (* extract_geography_from_address calls [address.split] *)
     address ← match om_data.(OMData.property_summary).(PropertySummary.address) with
                | Some a => Ok a
                | None => Raise (Raised AttributeError)
                end;
     let geography := extract_geography_from_address address in
     let market_data := get_supabase_market_data geography "Multifamily" in
     let crexi_comps := market_data.1 in
     let realtor_comps := market_data.2 in
     let crexi_comps :=
       match crexi_comps with [] => get_mock_crexi_comps | _ => crexi_comps end in
     let realtor_comps :=
       match realtor_comps with [] => get_mock_realtor_comps | _ => realtor_comps end in
     let crexi_comps := apply_filters crexi_comps filters in
     let realtor_comps := apply_filters realtor_comps filters in
     crexi_stats ← calculate_comp_stats crexi_comps;
     realtor_stats ← calculate_comp_stats realtor_comps;
     let om_metrics :=
       OMMetrics.mk
         om_data.(OMData.financials).(FinancialMetrics.price_per_unit)
         om_data.(OMData.financials).(FinancialMetrics.price_per_sqft)
         om_data.(OMData.financials).(FinancialMetrics.cap_rate)
         om_data.(OMData.unit_rents) in
     let comparisons := calculate_comparisons om_metrics crexi_stats realtor_stats in
     Ok (AnalysisResponse.mk
           om_data.(OMData.property_summary)
           om_data.(OMData.unit_rents)
           om_data.(OMData.financials)
           om_data.(OMData.vacancy_egi)
           crexi_stats realtor_stats comparisons crexi_comps realtor_comps))
    (fun e => Raise (HTTPException 500 ("Analysis failed: " +:+ str_of_exn e))).

End Endpoint.

(* ====================================================================== *)
(** * A concrete run-time for evaluating the service                       *)
(* ====================================================================== *)

(** Stand-ins for the built-ins, used to run the service on concrete inputs:
    plain decimal numerals, unquoted comma-separated text, content that is
    valid UTF-8, no client for the hosted store, and a [sum] that adds from
    the left. *)
Module Reference.

Fixpoint digits_value (s : string) (acc : Z) : option Z :=
  match s with
  | EmptyString => Some acc
  | String c r =>
      let n := nat_of_ascii c in
      if (48 <=? n)%nat && (n <=? 57)%nat
      then digits_value r (10 * acc + Z.of_nat (n - 48))%Z
      else None
  end.

(** Numerals [digits], [digits.digits], [.digits] and [digits.]. *)
Definition unsigned_decimal (s : string) : option float :=
  match Py.split "." s with
  | [ip] =>
      if String.eqb ip "" then None
      else n ← digits_value ip 0%Z; Some (Py.float_of_Z n)
  | [ip; fp] =>
      if String.eqb ip "" && String.eqb fp "" then None
      else
        n ← digits_value (ip +:+ fp) 0%Z;
        Some (Py.float_of_Z n / Py.float_of_Z (10 ^ Z.of_nat (String.length fp)))
  | _ => None
  end.

Definition decimal_float (s : string) : option float :=
  match s with
  | String "-" r => x ← unsigned_decimal r; Some (- x)
  | String "+" r => unsigned_decimal r
  | _ => unsigned_decimal s
  end.

(** Header cells paired with the cells of a data line; the columns that the
    line does not reach hold [None]. *)
Fixpoint zip_row (header cells : list string) : row :=
  match header, cells with
  | [], _ => ∅
  | h :: hs, [] => <[h := None]> (zip_row hs [])
  | h :: hs, c :: cs => <[h := Some c]> (zip_row hs cs)
  end.

Definition unquoted_first_row (text : string) : result row :=
  match Py.split "010" text with
  | header :: lines =>
      match List.filter (fun l => negb (String.eqb l "")) lines with
      | line :: _ => Ok (zip_row (Py.split_comma header) (Py.split_comma line))
      | [] => Raise (Raised StopIteration)
      end
  | [] => Raise (Raised StopIteration)
  end.

Definition kind_name (k : error_kind) : string :=
  match k with
  | ValueError => "could not convert string to float"
  | TypeError => "float() argument must be a string or a real number"
  | AttributeError => "'NoneType' object has no attribute"
  | OverflowError => "cannot convert float infinity to integer"
  | StopIteration => ""
  | UnicodeDecodeError => "'utf-8' codec can't decode byte"
  | CsvError => "line contains NUL"
  end.

Definition str (e : exn) : string :=
  match e with
  | HTTPException status_code detail => Py.decimal status_code +:+ ": " +:+ detail
  | Raised k => kind_name k
  end.

#[export] Instance builtins : Builtins := {|
  float_of_str := decimal_float;
  csv_first_row := unquoted_first_row;
  decode_utf8 := Some;
  str_of_exn := str;
  supabase := None;
  compensated_sum := false |}.

(** The same run-time on an interpreter whose [sum] compensates. *)
Definition compensated : Builtins := {|
  float_of_str := decimal_float;
  csv_first_row := unquoted_first_row;
  decode_utf8 := Some;
  str_of_exn := str;
  supabase := None;
  compensated_sum := true |}.

End Reference.

(** The example row of the csv template ([get_csv_template]). *)
Definition example_row : row :=
  list_to_map
    [ ("address", Some "123 Main St, Tampa, FL");
      ("opportunity_zone", Some "No");
      ("cap_rate", Some "5.4");
      ("rentable_sqft", Some "108750");
      ("avg_sqft_per_unit", Some "920");
      ("asking_price", Some "34250000");
      ("lot_size_acres", Some "1.85");
      ("total_units", Some "120");
      ("one_bed_rent", Some "1650");
      ("two_bed_rent", Some "2100");
      ("three_bed_rent", Some "2450");
      ("four_bed_rent", Some "2800");
      ("noi", Some "1890000");
      ("price_per_sqft", Some "315");
      ("price_per_unit", Some "285417");
      ("price_per_acre", Some "18513514");
      ("vacancy_rate", Some "0.06");
      ("gross_potential_rent", Some "2300000") ]%string.

(* ====================================================================== *)
(** * The specification's view of the filter                               *)
(* ====================================================================== *)

(** A number of either Python type, to speak of all bounds uniformly. *)
Inductive num :=
| NInt (n : Z)
| NFloat (x : float).

Definition num_truthy (v : num) : bool :=
  match v with NInt n => Py.truthyZ n | NFloat x => Py.truthy x end.

(** [a < b]; a bound and the field it refers to always have the same type. *)
Definition num_lt (a b : num) : bool :=
  match a, b with
  | NInt m, NInt n => (m <? n)%Z
  | NFloat x, NFloat y => x <? y
  | _, _ => false
  end.

(** The thirteen bounds of [CompFilterRequest]. *)
Inductive bound :=
| PriceMin | PriceMax | UnitsMin | UnitsMax | DistanceMax
| CapRateMin | CapRateMax | PricePerUnitMin | PricePerUnitMax
| PricePerSqftMin | PricePerSqftMax | PricePerAcreMin | PricePerAcreMax.

Definition all_bounds : list bound :=
  [PriceMin; PriceMax; UnitsMin; UnitsMax; DistanceMax; CapRateMin; CapRateMax;
   PricePerUnitMin; PricePerUnitMax; PricePerSqftMin; PricePerSqftMax;
   PricePerAcreMin; PricePerAcreMax].

Definition is_min (b : bound) : bool :=
  match b with
  | PriceMin | UnitsMin | CapRateMin | PricePerUnitMin | PricePerSqftMin
  | PricePerAcreMin => true
  | _ => false
  end.

Definition bound_value (b : bound) (f : CompFilterRequest.t) : option num :=
  match b with
  | PriceMin => NFloat <$> f.(CompFilterRequest.price_min)
  | PriceMax => NFloat <$> f.(CompFilterRequest.price_max)
  | UnitsMin => NInt <$> f.(CompFilterRequest.units_min)
  | UnitsMax => NInt <$> f.(CompFilterRequest.units_max)
  | DistanceMax => NFloat <$> f.(CompFilterRequest.distance_miles)
  | CapRateMin => NFloat <$> f.(CompFilterRequest.cap_rate_min)
  | CapRateMax => NFloat <$> f.(CompFilterRequest.cap_rate_max)
  | PricePerUnitMin => NFloat <$> f.(CompFilterRequest.price_per_unit_min)
  | PricePerUnitMax => NFloat <$> f.(CompFilterRequest.price_per_unit_max)
  | PricePerSqftMin => NFloat <$> f.(CompFilterRequest.price_per_sqft_min)
  | PricePerSqftMax => NFloat <$> f.(CompFilterRequest.price_per_sqft_max)
  | PricePerAcreMin => NFloat <$> f.(CompFilterRequest.price_per_acre_min)
  | PricePerAcreMax => NFloat <$> f.(CompFilterRequest.price_per_acre_max)
  end.

(** The field of a comparable that a bound refers to. *)
Definition field_value (b : bound) (c : CompProperty.t) : option num :=
  match b with
  | PriceMin | PriceMax => NFloat <$> c.(CompProperty.price)
  | UnitsMin | UnitsMax => NInt <$> c.(CompProperty.units)
  | DistanceMax => NFloat <$> c.(CompProperty.distance_miles)
  | CapRateMin | CapRateMax => NFloat <$> c.(CompProperty.cap_rate)
  | PricePerUnitMin | PricePerUnitMax => NFloat <$> c.(CompProperty.price_per_unit)
  | PricePerSqftMin | PricePerSqftMax => NFloat <$> c.(CompProperty.price_per_sqft)
  | PricePerAcreMin | PricePerAcreMax => NFloat <$> c.(CompProperty.price_per_acre)
  end.

(** The criteria [f] with the bound [b] left unset. *)
Definition unset_bound (b : bound) (f : CompFilterRequest.t) : CompFilterRequest.t :=
  let '(CompFilterRequest.mk pmin pmax umin umax dist cmin cmax pumin pumax
          psmin psmax pamin pamax) := f in
  match b with
  | PriceMin => CompFilterRequest.mk None pmax umin umax dist cmin cmax pumin pumax psmin psmax pamin pamax
  | PriceMax => CompFilterRequest.mk pmin None umin umax dist cmin cmax pumin pumax psmin psmax pamin pamax
  | UnitsMin => CompFilterRequest.mk pmin pmax None umax dist cmin cmax pumin pumax psmin psmax pamin pamax
  | UnitsMax => CompFilterRequest.mk pmin pmax umin None dist cmin cmax pumin pumax psmin psmax pamin pamax
  | DistanceMax => CompFilterRequest.mk pmin pmax umin umax None cmin cmax pumin pumax psmin psmax pamin pamax
  | CapRateMin => CompFilterRequest.mk pmin pmax umin umax dist None cmax pumin pumax psmin psmax pamin pamax
  | CapRateMax => CompFilterRequest.mk pmin pmax umin umax dist cmin None pumin pumax psmin psmax pamin pamax
  | PricePerUnitMin => CompFilterRequest.mk pmin pmax umin umax dist cmin cmax None pumax psmin psmax pamin pamax
  | PricePerUnitMax => CompFilterRequest.mk pmin pmax umin umax dist cmin cmax pumin None psmin psmax pamin pamax
  | PricePerSqftMin => CompFilterRequest.mk pmin pmax umin umax dist cmin cmax pumin pumax None psmax pamin pamax
  | PricePerSqftMax => CompFilterRequest.mk pmin pmax umin umax dist cmin cmax pumin pumax psmin None pamin pamax
  | PricePerAcreMin => CompFilterRequest.mk pmin pmax umin umax dist cmin cmax pumin pumax psmin psmax None pamax
  | PricePerAcreMax => CompFilterRequest.mk pmin pmax umin umax dist cmin cmax pumin pumax psmin psmax pamin None
  end.

(** A value breaks a limit: it is below a minimum, or above a maximum. *)
Definition breaks (b : bound) (limit v : num) : bool :=
  if is_min b then num_lt v limit else num_lt limit v.

(** The contract as the specification words it: a comparable is excluded by
    a bound that is set when its field is present and breaks the bound. *)
Definition excluded_as_specified (b : bound) (f : CompFilterRequest.t)
    (c : CompProperty.t) : bool :=
  match bound_value b f, field_value b c with
  | Some limit, Some v => breaks b limit v
  | _, _ => false
  end.

Definition survives_as_specified (f : CompFilterRequest.t) (c : CompProperty.t) : bool :=
  forallb (fun b => negb (excluded_as_specified b f c)) all_bounds.

(** The contract of the code: the bound must be set and non-zero, the field
    present and non-zero, and the field must break the bound. *)
Definition excluded_by (b : bound) (f : CompFilterRequest.t) (c : CompProperty.t) : bool :=
  match bound_value b f, field_value b c with
  | Some limit, Some v => num_truthy limit && num_truthy v && breaks b limit v
  | _, _ => false
  end.

Definition survives (f : CompFilterRequest.t) (c : CompProperty.t) : bool :=
  forallb (fun b => negb (excluded_by b f c)) all_bounds.

(** A bound that is set to zero ([0], [0.0] or [-0.0]). *)
Definition zero_bound (b : bound) (f : CompFilterRequest.t) : Prop :=
  exists limit, bound_value b f = Some limit /\ num_truthy limit = false.

(* ====================================================================== *)
(** * The specification's view of the aggregation                          *)
(* ====================================================================== *)

Inductive bedroom := OneBed | TwoBed | ThreeBed | FourBed.

Definition rent (b : bedroom) (u : UnitRentData.t) : option float :=
  match b with
  | OneBed => u.(UnitRentData.one_bed)
  | TwoBed => u.(UnitRentData.two_bed)
  | ThreeBed => u.(UnitRentData.three_bed)
  | FourBed => u.(UnitRentData.four_bed)
  end.

(** The numeric fields that [CompStats] averages. *)
Inductive avg_field :=
| AvgPrice | AvgUnits | AvgCapRate | AvgPricePerUnit | AvgPricePerSqft
| AvgPricePerAcre | AvgNoi | AvgRent (b : bedroom).

(** What a comparable reports for a field, if anything. *)
Definition reported_value (a : avg_field) (c : CompProperty.t) : option num :=
  match a with
  | AvgPrice => NFloat <$> c.(CompProperty.price)
  | AvgUnits => NInt <$> c.(CompProperty.units)
  | AvgCapRate => NFloat <$> c.(CompProperty.cap_rate)
  | AvgPricePerUnit => NFloat <$> c.(CompProperty.price_per_unit)
  | AvgPricePerSqft => NFloat <$> c.(CompProperty.price_per_sqft)
  | AvgPricePerAcre => NFloat <$> c.(CompProperty.price_per_acre)
  | AvgNoi => NFloat <$> c.(CompProperty.noi)
  | AvgRent b => NFloat <$> (c.(CompProperty.unit_rents) ≫= rent b)
  end.

(** The values of the reporting subset, in list order. *)
Definition reported (a : avg_field) (comps : list CompProperty.t) : list num :=
  omap (reported_value a) comps.

(** The average as the response carries it: a number, or null. *)
Definition average_of (a : avg_field) (s : CompStats.t) : option float :=
  match a with
  | AvgPrice => Some s.(CompStats.avg_price)
  | AvgUnits => Some s.(CompStats.avg_units)
  | AvgCapRate => s.(CompStats.avg_cap_rate)
  | AvgPricePerUnit => Some s.(CompStats.avg_price_per_unit)
  | AvgPricePerSqft => Some s.(CompStats.avg_price_per_sqft)
  | AvgPricePerAcre => s.(CompStats.avg_price_per_acre)
  | AvgNoi => s.(CompStats.avg_noi)
  | AvgRent b => s.(CompStats.avg_unit_rents) ≫= rent b
  end.

(** The averages whose type is plain [float]: they fall back to 0. *)
Definition zero_when_empty (a : avg_field) : bool :=
  match a with
  | AvgPrice | AvgUnits | AvgPricePerUnit | AvgPricePerSqft => true
  | _ => false
  end.

(** The ints and the floats of a list of numbers. *)
Definition ints (vs : list num) : list Z :=
  omap (fun v => match v with NInt n => Some n | NFloat _ => None end) vs.

Definition floats (vs : list num) : list float :=
  omap (fun v => match v with NFloat x => Some x | NInt _ => None end) vs.

(** The average that the statistics carry for a field, from the values
    reported for it: the fallback when there is none, else [sum / len], on
    ints for the unit counts and on floats for every other field. *)
Definition expected_average `{Builtins} (a : avg_field) (vs : list num) : option float :=
  match vs with
  | [] => if zero_when_empty a then Some 0 else None
  | _ =>
      match a with
      | AvgUnits => Py.meanZ (ints vs)
      | _ => Some (Py.mean compensated_sum (floats vs))
      end
  end.

(** The unit counts of a list average beyond the largest float. *)
Definition units_overflow (comps : list CompProperty.t) : bool :=
  match omap CompProperty.units comps with
  | [] => false
  | ns => match Py.meanZ ns with Some _ => false | None => true end
  end.

(** The value of a finite float, counted in units of 2^-1074 (every finite
    float is a whole number of them). *)
Definition exact_value (x : float) : option Z :=
  match Prim2SF x with
  | S754_zero _ => Some 0%Z
  | S754_finite s m e =>
      let v := (Z.pos m * 2 ^ (e + 1074))%Z in
      Some (if s then (- v)%Z else v)
  | _ => None
  end.

(** [avg] is the arithmetic mean of [xs] as real numbers, without any
    rounding: [avg * len(xs)] equals the sum of [xs]. *)
Definition is_exact_mean (xs : list float) (avg : float) : bool :=
  match exact_value avg, mapM exact_value xs with
  | Some a, Some vs => (a * Z.of_nat (length xs) =? fold_right Z.add 0 vs)%Z
  | _, _ => false
  end.

(** A comparable that reports nothing but a price, and one that reports
    nothing but a number of units. *)
Definition priced (p : float) : CompProperty.t :=
  CompProperty.mk "crexi" "" (Some p) None None None None None None None None.

Definition with_units (n : Z) : CompProperty.t :=
  CompProperty.mk "crexi" "" None (Some n) None None None None None None None.

(* ====================================================================== *)
(** * The specification's view of the comparisons                          *)
(* ====================================================================== *)

(** The fixed comparison set, in evaluation order. *)
Inductive metric := PricePerUnit | PricePerSqft | CapRate | OneBedRent | TwoBedRent.

Definition all_metrics : list metric :=
  [PricePerUnit; PricePerSqft; CapRate; OneBedRent; TwoBedRent].

Definition metric_label (m : metric) : string :=
  match m with
  | PricePerUnit => "Price per Unit"
  | PricePerSqft => "Price per SqFt"
  | CapRate => "Cap Rate"
  | OneBedRent => "1BR Rent"
  | TwoBedRent => "2BR Rent"
  end.

(** Ratio-scale metrics deviate in percent, the cap rate in points. *)
Definition ratio_scale (m : metric) : bool :=
  match m with CapRate => false | _ => true end.

Definition tail_of (m : metric) : string :=
  match m with
  | PricePerUnit | PricePerSqft => "% vs CREXi market"
  | CapRate => "pp vs CREXi market"
  | OneBedRent | TwoBedRent => "% vs Realtor market"
  end.

(** The subject's value of a metric; the three financial metrics are plain
    floats and always there, the rents are optional. *)
Definition subject_value (m : metric) (om : OMMetrics.t) : option float :=
  match m with
  | PricePerUnit => Some om.(OMMetrics.price_per_unit)
  | PricePerSqft => Some om.(OMMetrics.price_per_sqft)
  | CapRate => Some om.(OMMetrics.cap_rate)
  | OneBedRent => om.(OMMetrics.unit_rents).(UnitRentData.one_bed)
  | TwoBedRent => om.(OMMetrics.unit_rents).(UnitRentData.two_bed)
  end.

(** The market average that a metric is compared with. *)
Definition market_average (m : metric) (crexi realtor : CompStats.t) : option float :=
  match m with
  | PricePerUnit => Some crexi.(CompStats.avg_price_per_unit)
  | PricePerSqft => Some crexi.(CompStats.avg_price_per_sqft)
  | CapRate => crexi.(CompStats.avg_cap_rate)
  | OneBedRent => realtor.(CompStats.avg_unit_rents) ≫= rent OneBed
  | TwoBedRent => realtor.(CompStats.avg_unit_rents) ≫= rent TwoBed
  end.

Definition emitted (m : metric) (out : list ComparisonResult.t) : Prop :=
  exists r, In r out /\ r.(ComparisonResult.metric_name) = metric_label m.

(** The emission rule as the specification words it: both sides present and
    the market average non-zero. *)
Definition both_present_market_nonzero (m : metric) (om : OMMetrics.t)
    (crexi realtor : CompStats.t) : Prop :=
  exists s v, subject_value m om = Some s /\ market_average m crexi realtor = Some v
              /\ (v =? 0) = false.

(** The emission rule of the code: a strictly positive market average for the
    two price metrics; for the cap rate and the rents, both sides present and
    non-zero. *)
Definition emission_guard (m : metric) (om : OMMetrics.t)
    (crexi realtor : CompStats.t) : bool :=
  match subject_value m om, market_average m crexi realtor with
  | Some s, Some v =>
      match m with
      | PricePerUnit | PricePerSqft => 0 <? v
      | _ => Py.truthy s && Py.truthy v
      end
  | _, _ => false
  end.

(** The deviation of a metric by its class. *)
Definition deviation_of (m : metric) (s v : float) : float :=
  if ratio_scale m then ((s - v) / v) * 100 else s - v.

Definition labels (out : list ComparisonResult.t) : list string :=
  map ComparisonResult.metric_name out.

(** Market statistics holding one average price per unit and nothing else. *)
Definition stats_with_price_per_unit (v : float) : CompStats.t :=
  CompStats.mk 1 1 0 0 None v 0 None None None.

Definition stats_with_cap_rate (v : float) : CompStats.t :=
  CompStats.mk 1 1 0 0 (Some v) 0 0 None None None.

Definition om_metrics_of (om : OMData.t) : OMMetrics.t :=
  OMMetrics.mk
    om.(OMData.financials).(FinancialMetrics.price_per_unit)
    om.(OMData.financials).(FinancialMetrics.price_per_sqft)
    om.(OMData.financials).(FinancialMetrics.cap_rate)
    om.(OMData.unit_rents).

(** The result that the specification asks for a metric, given both sides. *)
Definition result_of (m : metric) (s v : float) : ComparisonResult.t :=
  ComparisonResult.mk (metric_label m) (Some s) (Some v)
    (Some (deviation_of m s v))
    (comment (deviation_of m s v) (tail_of m)).

Definition specified_block (m : metric) (om : OMMetrics.t)
    (crexi realtor : CompStats.t) : list ComparisonResult.t :=
  match subject_value m om, market_average m crexi realtor with
  | Some s, Some v =>
      if emission_guard m om crexi realtor then [result_of m s v] else []
  | _, _ => []
  end.

Definition stats_with_price_per_sqft (v : float) : CompStats.t :=
  CompStats.mk 1 1 0 0 None 0 v None None None.

(** The statistics of an empty list, and a subject with the built-in
    metrics. *)
Definition no_stats : CompStats.t := CompStats.mk 0 0 0 0 None 0 0 None None None.

Definition mock_metrics : OMMetrics.t := om_metrics_of get_mock_om_data.

(* ====================================================================== *)
(** * The specification's view of the parsed row                           *)
(* ====================================================================== *)

(** The numeric columns of the upload. *)
Inductive numeric_column :=
| ColCapRate | ColRentableSqft | ColAvgSqftPerUnit | ColAskingPrice
| ColLotSizeAcres | ColTotalUnits | ColRent (b : bedroom) | ColNoi
| ColPricePerSqft | ColPricePerUnit | ColPricePerAcre | ColVacancyRate
| ColGrossPotentialRent.

Definition column_name (col : numeric_column) : string :=
  match col with
  | ColCapRate => "cap_rate"
  | ColRentableSqft => "rentable_sqft"
  | ColAvgSqftPerUnit => "avg_sqft_per_unit"
  | ColAskingPrice => "asking_price"
  | ColLotSizeAcres => "lot_size_acres"
  | ColTotalUnits => "total_units"
  | ColRent OneBed => "one_bed_rent"
  | ColRent TwoBed => "two_bed_rent"
  | ColRent ThreeBed => "three_bed_rent"
  | ColRent FourBed => "four_bed_rent"
  | ColNoi => "noi"
  | ColPricePerSqft => "price_per_sqft"
  | ColPricePerUnit => "price_per_unit"
  | ColPricePerAcre => "price_per_acre"
  | ColVacancyRate => "vacancy_rate"
  | ColGrossPotentialRent => "gross_potential_rent"
  end.

(** Where a column ends up in the parsed record ([cap_rate] in two places);
    [None] is Python's [None]. *)
Definition parsed_values (col : numeric_column) (om : OMData.t) : list (option num) :=
  let ps := om.(OMData.property_summary) in
  let fm := om.(OMData.financials) in
  let ve := om.(OMData.vacancy_egi) in
  match col with
  | ColCapRate => [Some (NFloat ps.(PropertySummary.cap_rate));
                   Some (NFloat fm.(FinancialMetrics.cap_rate))]
  | ColRentableSqft => [Some (NInt ps.(PropertySummary.rentable_sqft))]
  | ColAvgSqftPerUnit => [Some (NFloat ps.(PropertySummary.avg_sqft_per_unit))]
  | ColAskingPrice => [Some (NFloat ps.(PropertySummary.asking_price))]
  | ColLotSizeAcres => [Some (NFloat ps.(PropertySummary.lot_size_acres))]
  | ColTotalUnits => [Some (NInt ps.(PropertySummary.total_units))]
  | ColRent b => [NFloat <$> rent b om.(OMData.unit_rents)]
  | ColNoi => [Some (NFloat fm.(FinancialMetrics.noi))]
  | ColPricePerSqft => [Some (NFloat fm.(FinancialMetrics.price_per_sqft))]
  | ColPricePerUnit => [Some (NFloat fm.(FinancialMetrics.price_per_unit))]
  | ColPricePerAcre => [Some (NFloat fm.(FinancialMetrics.price_per_acre))]
  | ColVacancyRate => [Some (NFloat ve.(VacancyEGIData.vacancy_rate))]
  | ColGrossPotentialRent => [Some (NFloat ve.(VacancyEGIData.gross_potential_rent))]
  end.

(** A parsed value that is the number zero. *)
Definition is_zero (v : option num) : bool :=
  match v with
  | Some n => negb (num_truthy n)
  | None => false
  end.

(** What a column that the row lacks parses to. *)
Definition missing_default (col : numeric_column) : option num :=
  match col with
  | ColRent _ => None
  | ColRentableSqft | ColTotalUnits => Some (NInt 0)
  | _ => Some (NFloat 0)
  end.

(** The record parsed from a row that has none of the named columns. *)
Definition all_defaults : OMData.t :=
  OMData.mk
    (PropertySummary.mk (Some ""%string) false 0 0 0 0 0 0)
    (UnitRentData.mk None None None None)
    (FinancialMetrics.mk 0 0 0 0 0)
    (VacancyEGIData.mk 0 0 0).

(** The invariant of the vacancy and income section. *)
Definition egi_invariant (om : OMData.t) : Prop :=
  let ve := om.(OMData.vacancy_egi) in
  ve.(VacancyEGIData.effective_gross_income)
  = ve.(VacancyEGIData.gross_potential_rent) * (1 - ve.(VacancyEGIData.vacancy_rate)).

(** The numerals of the example row with the floats they denote. *)
Definition example_numerals : list (string * float) :=
  [ ("5.4", 5.4); ("108750", 108750); ("920", 920); ("34250000", 34250000);
    ("1.85", 1.85); ("120", 120); ("1650", 1650); ("2100", 2100);
    ("2450", 2450); ("2800", 2800); ("1890000", 1890000); ("315", 315);
    ("285417", 285417); ("18513514", 18513514); ("0.06", 0.06);
    ("2300000", 2300000) ]%string.

(** An upload whose only cell is not a number. *)
Definition unreadable_upload : string :=
  "cap_rate" +:+ String "010" "abc" +:+ String "010" "".

(* ====================================================================== *)
(** * Concrete inputs                                                      *)
(* ====================================================================== *)

(** A comparable that reports a price of 0, and a criteria asking for a
    price of at least 100. *)
Definition free_listing : CompProperty.t := priced 0.

Definition at_least_100 : CompFilterRequest.t :=
  CompFilterRequest.mk (Some 100) None None None None None None None None None
    None None None.

(** Criteria with [price_max = 0]: no comparable is priced at or below it. *)
Definition price_at_most_0 : CompFilterRequest.t :=
  CompFilterRequest.mk None (Some 0) None None None None None None None None
    None None None.

(** The price-per-unit deviation of the example, as the code computes it. *)
Definition example_deviation : float := percent_deviation 285417 291304.

(** A subject whose 1-bedroom rent is reported as 0, and the statistics of
    the built-in rent comparables. *)
Definition zero_rent_metrics : OMMetrics.t :=
  OMMetrics.mk 285417 315 5.4 (UnitRentData.mk (Some 0) None None None).

Definition mock_realtor_stats : CompStats.t :=
  CompStats.mk 3 3 0 0 None 0 0 None None
    (Some (UnitRentData.mk (Some (4585 / 3)) (Some (5843 / 3))
             (Some (6823 / 3)) (Some (7638 / 3)))).

(** The price-per-square-foot comparison of the built-in data. *)
Definition mock_sqft_result : ComparisonResult.t :=
  ComparisonResult.mk "Price per SqFt" (Some 315) (Some 313)
    (Some ((315 - 313) / 313 * 100)) "+0.6% vs CREXi market".

(* ====================================================================== *)
(** * Persistence sink                                                     *)
(* ====================================================================== *)

(** A row of the [investor_metrics] table; [unit_type] is there for the rent
    rows only. *)
Module InvestorMetric.
Record t := mk {
  deal_id : string;
  geography : string;
  asset_type : string;
  metric_name : string;
  unit_type : option string;
  value_num : num;
  unit : string }.
End InvestorMetric.

(** [s.replace(old, new)] and [s.replace(old, '')] for one-character [old]
    and [new]. *)
Fixpoint replace_char (old new : ascii) (s : string) : string :=
  match s with
  | EmptyString => EmptyString
  | String c r =>
      String (if Ascii.eqb c old then new else c) (replace_char old new r)
  end.

Fixpoint remove_char (old : ascii) (s : string) : string :=
  match s with
  | EmptyString => EmptyString
  | String c r =>
      if Ascii.eqb c old then remove_char old r
      else String c (remove_char old r)
  end.

(** [f"OM_{address.replace(' ', '_').replace(',', '')}"]. *)
Definition deal_id_of (address : string) : string :=
  "OM_" +:+ remove_char "," (replace_char " " "_" address).

(** The rent rows that [store_om_data_in_supabase] appends: one for a truthy
    rent, none otherwise. *)
Definition rent_row (deal_id geography unit_type : string) (r : option float)
    : list InvestorMetric.t :=
  match r with
  | Some x =>
      if Py.truthy x
      then [InvestorMetric.mk deal_id geography "Multifamily" "avg_rent_usd_month"
              (Some unit_type) (NFloat x) "USD/month"]
      else []
  | None => []
  end.

(** The list [metrics_to_store] that the body of the [try] builds;
    [address.replace] raises on a [None] address. *)
Definition metrics_to_store (om_data : OMData.t) : result (list InvestorMetric.t) :=
  let property_summary := om_data.(OMData.property_summary) in
  let financials := om_data.(OMData.financials) in
  let unit_rents := om_data.(OMData.unit_rents) in
  address ← match property_summary.(PropertySummary.address) with
             | Some a => Ok a
             | None => Raise (Raised AttributeError)
             end;
  let deal_id := deal_id_of address in
  let geography := extract_geography_from_address address in
  let metric name value unit :=
    InvestorMetric.mk deal_id geography "Multifamily" name None value unit in
  let metrics_to_store :=
    [ metric "rentable_sqft" (NInt property_summary.(PropertySummary.rentable_sqft)) "sqft";
      metric "cap_rate_pct" (NFloat financials.(FinancialMetrics.cap_rate)) "%";
      metric "noi_usd" (NFloat financials.(FinancialMetrics.noi)) "USD";
      metric "price_per_sf_usd" (NFloat financials.(FinancialMetrics.price_per_sqft)) "$/sf";
      metric "price_per_unit_usd" (NFloat financials.(FinancialMetrics.price_per_unit)) "$/unit";
      metric "price_per_acre_usd" (NFloat financials.(FinancialMetrics.price_per_acre)) "$/acre" ]%string in
  let metrics_to_store :=
    metrics_to_store ++ rent_row deal_id geography "1BR" unit_rents.(UnitRentData.one_bed) in
  let metrics_to_store :=
    metrics_to_store ++ rent_row deal_id geography "2BR" unit_rents.(UnitRentData.two_bed) in
  Ok metrics_to_store.

Section Sink.
Context `{Builtins}.

(** [store_om_data_in_supabase(om_data)]: the rows handed to
    [insert(...).execute()], or [None] when the function returns before the
    call (no client, or building the rows raised).  Whatever the insert
    raises is printed and dropped, so the function itself returns nothing
    either way. *)
Definition store_om_data_in_supabase (om_data : OMData.t)
    : option (list InvestorMetric.t) :=
  match supabase with
  | None => None
  | Some _ =>
      match metrics_to_store om_data with
      | Ok rows => Some rows
      | Raise _ => None
      end
  end.

End Sink.

(* ====================================================================== *)
(** * Secondary endpoints                                                  *)
(* ====================================================================== *)

Module MarketDataResponse.
Record t := mk {
  geography : string;
  crexi_comps : list CompProperty.t;
  realtor_comps : list CompProperty.t;
  crexi_stats : CompStats.t;
  realtor_stats : CompStats.t }.
End MarketDataResponse.

Section MarketEndpoint.
Context `{Builtins}.

(** [get_market_data(geography)]. *)
Definition get_market_data (geography : string) : result MarketDataResponse.t :=
  try_except
    (let market_data := get_supabase_market_data geography "Multifamily" in
     crexi_stats ← calculate_comp_stats market_data.1;
     realtor_stats ← calculate_comp_stats market_data.2;
     Ok (MarketDataResponse.mk geography market_data.1 market_data.2
           crexi_stats realtor_stats))
    (fun e => Raise (HTTPException 500 ("Failed to get market data: " +:+ str_of_exn e))).

End MarketEndpoint.

(** The column list of [get_csv_template]. *)
Definition csv_template_columns : list string :=
  [ "address"; "opportunity_zone"; "cap_rate"; "rentable_sqft";
    "avg_sqft_per_unit"; "asking_price"; "lot_size_acres"; "total_units";
    "one_bed_rent"; "two_bed_rent"; "three_bed_rent"; "four_bed_rent"; "noi";
    "price_per_sqft"; "price_per_unit"; "price_per_acre"; "vacancy_rate";
    "gross_potential_rent" ]%string.

(* ====================================================================== *)
(** * Notions used by the further properties                               *)
(* ====================================================================== *)

(** A comparable without any of the fields that a bound refers to. *)
Definition no_filterable_field (c : CompProperty.t) : Prop :=
  forall b, field_value b c = None.

(** How many of the listed optional values are present. *)
Definition count_present (vs : list (option float)) : nat :=
  length (omap id vs).

(** The six metrics that a CREXi store record can fill. *)
Definition crexi_metrics (c : CompProperty.t) : list (option float) :=
  [ c.(CompProperty.price); c.(CompProperty.cap_rate);
    c.(CompProperty.price_per_unit); c.(CompProperty.price_per_sqft);
    c.(CompProperty.price_per_acre); c.(CompProperty.noi) ].

Definition rents_of (u : UnitRentData.t) : list (option float) :=
  [ u.(UnitRentData.one_bed); u.(UnitRentData.two_bed);
    u.(UnitRentData.three_bed); u.(UnitRentData.four_bed) ].

Fixpoint no_char (c : ascii) (s : string) : bool :=
  match s with
  | EmptyString => true
  | String d r => negb (Ascii.eqb d c) && no_char c r
  end.

(** One step of [lstrip]: the text after a leading whitespace character, if
    the text starts with one. *)
Definition after_space (s : string) : option string :=
  match s with
  | String c r =>
      if Py.is_space c then Some r
      else
        match r with
        | String d r' =>
            if Py.two_byte_space c d then Some r'
            else
              match r' with
              | String e r'' => if Py.three_byte_space c d e then Some r'' else None
              | EmptyString => None
              end
        | EmptyString => None
        end
  | EmptyString => None
  end.

(** Criteria that keep only comparables within 0.1 miles. *)
Definition within_a_tenth_mile : CompFilterRequest.t :=
  CompFilterRequest.mk None None None None (Some 0.1) None None None None None
    None None None.

(** A store client that answers every query with the given records. *)
Definition constant_store (records : list market_record) : Builtins := {|
  float_of_str := Reference.decimal_float;
  csv_first_row := Reference.unquoted_first_row;
  decode_utf8 := Some;
  str_of_exn := Reference.str;
  supabase := Some (fun _ _ _ => Ok records);
  compensated_sum := false |}.

(** A store client whose queries raise for one provider. *)
Definition failing_for (provider : string) (records : list market_record) : Builtins := {|
  float_of_str := Reference.decimal_float;
  csv_first_row := Reference.unquoted_first_row;
  decode_utf8 := Some;
  str_of_exn := Reference.str;
  supabase := Some (fun p _ _ =>
    if String.eqb p provider then Raise (Raised ValueError) else Ok records);
  compensated_sum := false |}.

Definition cap_rate_record : market_record :=
  {[ "metric_name"%string := JString "cap_rate_pct"; "value"%string := JNumber 5.5 ]}.

Definition one_bed_rent_record : market_record :=
  {[ "metric_name"%string := JString "avg_rent_usd_month";
     "unit_type"%string := JString "1BR";
     "value"%string := JNumber 1500 ]}.

(** A row that a short csv line leaves without an address. *)
Definition row_without_address : row :=
  {[ "address"%string := None ]}.

(** The numeric columns other than the four bedroom rents. *)
Definition plain_numeric (col : numeric_column) : bool :=
  match col with ColRent _ => false | _ => true end.

(** The example row with one more column, and a text whose data line stops
    before the [noi] cell. *)
Definition example_row_with_notes : row :=
  <[ "notes"%string := Some "call the broker"%string ]> example_row.

Definition short_line_upload : string :=
  "cap_rate,noi" +:+ String "010" "5.4" +:+ String "010" "".

(** An upload with the cap rate only, and the record it parses to. *)
Definition cap_rate_only_upload : string :=
  "cap_rate" +:+ String "010" "5.4" +:+ String "010" "".

Definition cap_rate_only_record : OMData.t :=
  OMData.mk
    (PropertySummary.mk (Some ""%string) false 5.4 0 0 0 0 0)
    (UnitRentData.mk None None None None)
    (FinancialMetrics.mk 0 5.4 0 0 0)
    (VacancyEGIData.mk 0 0 0).

(** An upload whose data line stops before the [address] cell. *)
Definition no_address_upload : string :=
  "cap_rate,address" +:+ String "010" "5.4" +:+ String "010" "".

Section EndpointNotions.
Context `{Builtins}.

(** The subject record that [analyze_om] works on: parsed from the upload,
    or the built-in one. *)
Definition subject_record (om_csv : option string) : result OMData.t :=
  match om_csv with
  | Some csv_content =>
      csv_text ← match decode_utf8 csv_content with
                  | Some t => Ok t
                  | None => Raise (Raised UnicodeDecodeError)
                  end;
      parse_csv_om_data csv_text
  | None => Ok get_mock_om_data
  end.

(** The comparables of a provider before filtering: the store's, or the
    built-in ones when the store gives none. *)
Definition or_builtin (store builtin : list CompProperty.t) : list CompProperty.t :=
  match store with [] => builtin | _ => store end.

End EndpointNotions.
(* ====================================================================== *)
(** * The model on concrete inputs                                         *)
(* ====================================================================== *)

Example format_1f_samples :
  map Py.format_1f [-2.0209128607914755; -0.04; 0.05; 0.25; 10; 5.4 - 5.5; 1234.56]
  = ["-2.0"; "-0.0"; "0.1"; "0.2"; "10.0"; "-0.1"; "1234.6"]%string.
Proof. vm_compute. reflexivity. Qed.

Example int_of_float_samples :
  map Py.int_of_float [108750; 120.9; -3.7; 0; 0.5]
  = [Some 108750; Some 120; Some (-3); Some 0; Some 0]%Z.
Proof. vm_compute. reflexivity. Qed.

Example extract_geography_samples :
  extract_geography_from_address "123 Main St, Tampa, FL" = "Tampa, FL"%string
  /\ extract_geography_from_address "nowhere" = "Tampa, FL"%string.
Proof. vm_compute. auto. Qed.

(** The two summations on the built-in cap rates, and on many small numbers
    after a large one. *)
Example sum_samples :
  Py.sum false [5.5; 5.3; 5.4] = 16.200000000000003
  /\ Py.sum true [5.5; 5.3; 5.4] = 16.2
  /\ Py.sum false [1e16; 1; 1; 1; 1] = 1e16
  /\ Py.sum true [1e16; 1; 1; 1; 1] = 10000000000000004.
Proof. vm_compute. auto. Qed.

(** The division of ints rounds the exact quotient once; beyond the floats
    it raises. *)
Example truediv_samples :
  map (fun p => Py.truediv p.1 p.2)
    [(348, 3); (9007199254740993, 3); (-7, 2); (1, 3); (0, 5); (2 ^ 1024, 1)]%Z
  = [Some 116; Some 3002399751580331; Some (-3.5); Some 0.33333333333333331;
     Some 0; None].
Proof. vm_compute. reflexivity. Qed.

(** Stripping drops the whitespace characters of Unicode, the no-break
    space U+00A0 (bytes 194 160) and U+3000 (bytes 227 128 128) included,
    and nothing inside the text. *)
Example strip_samples :
  Py.strip "  Tampa " = "Tampa"%string
  /\ Py.strip (String "194" (String "160" "FL")) = "FL"%string
  /\ Py.strip ("FL" +:+ String "227" (String "128" (String "128" " "))) = "FL"%string
  /\ Py.strip "New  York" = "New  York"%string
  /\ Py.strip (String "009" (String "010" "")) = ""%string.
Proof. vm_compute. auto 6. Qed.

(** The built-in subject against the built-in comparables, no filters: the
    annotations of the response.  The average of the three built-in cap
    rates is 5.400000000000001 when [sum] adds from the left and
    5.3999999999999995 when it compensates, which changes the sign of the
    cap-rate annotation. *)
Example analyze_om_default_comments :
  match @analyze_om Reference.builtins CompFilterRequest.unset None with
  | Ok resp => map ComparisonResult.deviation_comment resp.(AnalysisResponse.comparisons)
  | Raise _ => []
  end
  = ["-1.8% vs CREXi market"; "+0.6% vs CREXi market"; "-0.0pp vs CREXi market";
     "+8.0% vs Realtor market"; "+7.8% vs Realtor market"]%string.
Proof. vm_compute. reflexivity. Qed.

Example analyze_om_default_comments_compensated :
  match @analyze_om Reference.compensated CompFilterRequest.unset None with
  | Ok resp => map ComparisonResult.deviation_comment resp.(AnalysisResponse.comparisons)
  | Raise _ => []
  end
  = ["-1.8% vs CREXi market"; "+0.6% vs CREXi market"; "+0.0pp vs CREXi market";
     "+8.0% vs Realtor market"; "+7.8% vs Realtor market"]%string.
Proof. vm_compute. reflexivity. Qed.

(** The statistics of the built-in rent comparables and of the empty list
    do not depend on the interpreter. *)
Example calculate_comp_stats_samples `{Builtins} :
  calculate_comp_stats get_mock_realtor_comps = Ok mock_realtor_stats
  /\ calculate_comp_stats [] = Ok no_stats.
Proof.
  destruct H as [? ? ? ? ? compensated].
  destruct compensated; split; vm_compute; reflexivity.
Qed.

(* ====================================================================== *)
(** * Properties of the filter                                             *)
(* ====================================================================== *)

Lemma apply_filters_loop_filter comps filters acc :
  apply_filters_loop comps filters acc
  = acc ++ List.filter (reaches_append filters) comps.
Proof.
  revert acc. induction comps as [|comp rest IH]; intros acc; simpl.
  - now rewrite app_nil_r.
  - rewrite IH. destruct (reaches_append filters comp); simpl.
    + now rewrite <- app_assoc.
    + reflexivity.
Qed.

(** The loop of [apply_filters] is a filter by its body. *)
Lemma apply_filters_filter comps filters :
  apply_filters comps filters = List.filter (reaches_append filters) comps.
Proof. unfold apply_filters. now rewrite apply_filters_loop_filter. Qed.

Lemma below_min_excluded (limit v : option float) :
  below_min limit v
  = match NFloat <$> limit, NFloat <$> v with
    | Some l, Some x => num_truthy l && num_truthy x && num_lt x l
    | _, _ => false
    end.
Proof.
  destruct limit as [l|], v as [x|]; simpl; try reflexivity.
  - now rewrite andb_assoc.
  - now rewrite andb_false_r.
Qed.

Lemma above_max_excluded (limit v : option float) :
  above_max limit v
  = match NFloat <$> limit, NFloat <$> v with
    | Some l, Some x => num_truthy l && num_truthy x && num_lt l x
    | _, _ => false
    end.
Proof.
  destruct limit as [l|], v as [x|]; simpl; try reflexivity.
  - now rewrite andb_assoc.
  - now rewrite andb_false_r.
Qed.

Lemma below_minZ_excluded (limit v : option Z) :
  below_minZ limit v
  = match NInt <$> limit, NInt <$> v with
    | Some l, Some x => num_truthy l && num_truthy x && num_lt x l
    | _, _ => false
    end.
Proof.
  destruct limit as [l|], v as [x|]; simpl; try reflexivity.
  - now rewrite andb_assoc.
  - now rewrite andb_false_r.
Qed.

Lemma above_maxZ_excluded (limit v : option Z) :
  above_maxZ limit v
  = match NInt <$> limit, NInt <$> v with
    | Some l, Some x => num_truthy l && num_truthy x && num_lt l x
    | _, _ => false
    end.
Proof.
  destruct limit as [l|], v as [x|]; simpl; try reflexivity.
  - now rewrite andb_assoc.
  - now rewrite andb_false_r.
Qed.

(** The thirteen tests of the loop body are the thirteen bounds. *)
Lemma reaches_append_survives filters comp :
  reaches_append filters comp = survives filters comp.
Proof.
  unfold reaches_append, survives, all_bounds, forallb, excluded_by, breaks,
    bound_value, field_value, is_min.
  rewrite !below_min_excluded, !above_max_excluded,
    !below_minZ_excluded, !above_maxZ_excluded.
  repeat match goal with
         | |- (if ?b then false else _) = negb ?b && _ =>
             destruct b; simpl; [reflexivity|]
         end.
  reflexivity.
Qed.

(** A missing field is never what excludes a comparable. *)
Lemma missing_field_not_excluded b filters comp :
  field_value b comp = None -> excluded_by b filters comp = false.
Proof.
  unfold excluded_by. intros ->. now destruct (bound_value b filters).
Qed.

(** [C2], as amended.  The filter returns, in their original order, exactly
    the comparables that no bound excludes, where a bound excludes a
    comparable when the bound is set and non-zero, the field it refers to is
    present and non-zero, and the field is below the minimum or above the
    maximum.  A comparable that lacks the field is never excluded by the
    bound, whatever the bound's value. *)
Theorem apply_filters_contract comps filters :
  apply_filters comps filters = List.filter (survives filters) comps
  /\ (forall b comp, field_value b comp = None -> excluded_by b filters comp = false)
  /\ (forall comp, In comp (apply_filters comps filters)
        <-> In comp comps /\ forall b, excluded_by b filters comp = false).
Proof.
  assert (E : apply_filters comps filters = List.filter (survives filters) comps).
  { rewrite apply_filters_filter. apply List.filter_ext. intros c.
    apply reaches_append_survives. }
  split; [exact E|]. split.
  - intros b comp. apply missing_field_not_excluded.
  - intros comp. rewrite E, List.filter_In. unfold survives.
    rewrite forallb_forall. split; intros [Hin Hall]; split; try exact Hin.
    + intros b. specialize (Hall b). destruct (excluded_by b filters comp); [|reflexivity].
      assert (Hb : In b all_bounds) by (destruct b; simpl; tauto).
      now specialize (Hall Hb).
    + intros b _. now rewrite Hall.
Qed.


(** [C2], as stated, fails: a comparable that reports the price 0 breaks the
    set bound [price_min = 100], yet the filter keeps it. *)
Lemma apply_filters_keeps_zero_price :
  excluded_as_specified PriceMin at_least_100 free_listing = true
  /\ List.filter (survives_as_specified at_least_100) [free_listing] = []
  /\ apply_filters [free_listing] at_least_100 = [free_listing].
Proof. vm_compute. auto. Qed.

(** [C9].  With no bound set the filter returns its input unchanged. *)
Theorem apply_filters_unset_identity comps filters :
  (forall b, bound_value b filters = None) ->
  apply_filters comps filters = comps.
Proof.
  intros Hunset. rewrite apply_filters_filter.
  induction comps as [|c rest IH]; simpl; [reflexivity|].
  rewrite reaches_append_survives.
  assert (Hs : survives filters c = true).
  { unfold survives. apply forallb_forall. intros b _.
    unfold excluded_by. now rewrite Hunset. }
  rewrite Hs. now f_equal.
Qed.

Lemma apply_filters_unset_identity_witness :
  apply_filters get_mock_crexi_comps CompFilterRequest.unset = get_mock_crexi_comps.
Proof.
  apply (apply_filters_unset_identity get_mock_crexi_comps CompFilterRequest.unset).
  intros b. destruct b; reflexivity.
Defined.

Lemma excluded_by_unset_zero b b' filters comp :
  zero_bound b filters ->
  excluded_by b' (unset_bound b filters) comp = excluded_by b' filters comp.
Proof.
  intros (limit & Hl & Hz). unfold excluded_by.
  destruct filters; destruct b, b'; simpl in *;
    try reflexivity;
    repeat match goal with
           | H : _ <$> ?o = Some _ |- _ => destruct o; simpl in H; [|discriminate]
           end;
    inversion Hl; subst; simpl in *; rewrite Hz; simpl;
    repeat match goal with
           | |- context [ _ <$> ?o ] => destruct o; simpl
           end; reflexivity.
Qed.

(** [C10].  A bound that is set to zero constrains nothing: filtering with it
    gives the same list as filtering with that bound unset, and the bound
    excludes no comparable. *)
Theorem apply_filters_zero_bound_unset comps filters b :
  zero_bound b filters ->
  apply_filters comps (unset_bound b filters) = apply_filters comps filters
  /\ forall comp, excluded_by b filters comp = false.
Proof.
  intros Hz. split.
  - rewrite !apply_filters_filter. apply List.filter_ext. intros c.
    rewrite !reaches_append_survives. unfold survives, all_bounds. simpl.
    now rewrite !(excluded_by_unset_zero b _ filters c Hz).
  - intros comp. destruct Hz as (limit & Hl & Hz). unfold excluded_by.
    rewrite Hl. destruct (field_value b comp); [|reflexivity].
    now rewrite Hz.
Qed.


Lemma apply_filters_zero_bound_unset_witness :
  apply_filters get_mock_crexi_comps (unset_bound PriceMax price_at_most_0)
  = apply_filters get_mock_crexi_comps price_at_most_0
  /\ apply_filters get_mock_crexi_comps price_at_most_0 = get_mock_crexi_comps.
Proof.
  split.
  - apply (proj1 (apply_filters_zero_bound_unset get_mock_crexi_comps
                    price_at_most_0 PriceMax
                    (ex_intro _ (NFloat 0) (conj eq_refl eq_refl)))).
  - reflexivity.
Defined.

(* ====================================================================== *)
(** * Properties of the aggregation                                        *)
(* ====================================================================== *)

Lemma omap_tagged {A B C} (tag : B -> C) (f : A -> option B) (l : list A) :
  omap (fun x => tag <$> f x) l = map tag (omap f l).
Proof.
  induction l as [|x l IH]; [reflexivity|].
  cbn [omap list_omap]. destruct (f x); cbn [fmap option_fmap option_map].
  - cbn [map]. f_equal. exact IH.
  - exact IH.
Qed.

Lemma omap_twice {A B C} (f : A -> option B) (g : B -> option C) (l : list A) :
  omap g (omap f l) = omap (fun x => f x ≫= g) l.
Proof.
  induction l as [|x l IH]; [reflexivity|].
  cbn [omap list_omap]. destruct (f x) as [y|]; cbn [mbind option_bind].
  - cbn [omap list_omap]. destruct (g y); [f_equal|]; exact IH.
  - exact IH.
Qed.

Lemma floats_tagged xs : floats (map NFloat xs) = xs.
Proof. induction xs as [|x xs IH]; [reflexivity|]. cbn. now f_equal. Qed.

Lemma ints_tagged ns : ints (map NInt ns) = ns.
Proof. induction ns as [|n ns IH]; [reflexivity|]. cbn. now f_equal. Qed.

Section AggregateFacts.
Context `{Builtins}.

Lemma mean_or_zero_reported a xs :
  zero_when_empty a = true -> a <> AvgUnits ->
  Some (mean_or_zero xs) = expected_average a (map NFloat xs).
Proof.
  intros Hz Ha. destruct xs as [|x xs]; cbn [map expected_average]; [now rewrite Hz|].
  change (NFloat x :: map NFloat xs) with (map NFloat (x :: xs)).
  rewrite floats_tagged. now destruct a.
Qed.

Lemma mean_or_none_reported a xs :
  zero_when_empty a = false ->
  mean_or_none xs = expected_average a (map NFloat xs).
Proof.
  intros Hz. destruct xs as [|x xs]; cbn [map expected_average]; [now rewrite Hz|].
  change (NFloat x :: map NFloat xs) with (map NFloat (x :: xs)).
  rewrite floats_tagged. now destruct a.
Qed.

Lemma meanZ_or_zero_reported ns x :
  meanZ_or_zero ns = Ok x ->
  Some x = expected_average AvgUnits (map NInt ns).
Proof.
  destruct ns as [|n ns]; cbn [meanZ_or_zero map expected_average zero_when_empty].
  - intros E. now injection E as <-.
  - change (NInt n :: map NInt ns) with (map NInt (n :: ns)). rewrite ints_tagged.
    destruct (Py.meanZ (n :: ns)); [|discriminate]. intros E. now injection E as <-.
Qed.

(** The aggregation returns exactly when the average of the unit counts
    does, and with that average. *)
Lemma calculate_comp_stats_Ok comps s :
  calculate_comp_stats comps = Ok s ->
  meanZ_or_zero (omap CompProperty.units comps) = Ok s.(CompStats.avg_units).
Proof.
  destruct comps as [|c rest]; [intros E; now injection E as <-|].
  unfold calculate_comp_stats. cbv zeta.
  destruct (meanZ_or_zero (omap CompProperty.units (c :: rest))) as [x|e];
    [|discriminate].
  intros E. now injection E as <-.
Qed.

Lemma calculate_comp_stats_returns comps x :
  meanZ_or_zero (omap CompProperty.units comps) = Ok x ->
  exists s, calculate_comp_stats comps = Ok s.
Proof.
  destruct comps as [|c rest]; [intros _; now eexists|].
  unfold calculate_comp_stats. cbv zeta. intros ->. now eexists.
Qed.

Lemma calculate_comp_stats_raises comps e :
  calculate_comp_stats comps = Raise e ->
  e = Raised OverflowError /\ units_overflow comps = true.
Proof.
  destruct comps as [|c rest]; [discriminate|].
  unfold calculate_comp_stats, units_overflow, meanZ_or_zero. cbv zeta.
  destruct (omap CompProperty.units (c :: rest)) as [|n ns]; [discriminate|].
  destruct (Py.meanZ (n :: ns)); [discriminate|].
  intros E. now injection E as <-.
Qed.

Lemma units_overflow_raises comps :
  units_overflow comps = true ->
  calculate_comp_stats comps = Raise (Raised OverflowError).
Proof.
  destruct comps as [|c rest]; [discriminate|].
  unfold calculate_comp_stats, units_overflow, meanZ_or_zero. cbv zeta.
  destruct (omap CompProperty.units (c :: rest)) as [|n ns]; [discriminate|].
  now destruct (Py.meanZ (n :: ns)).
Qed.

(** Every average of [calculate_comp_stats], read off the reported values. *)
Lemma average_of_stats comps s a :
  calculate_comp_stats comps = Ok s ->
  average_of a s = expected_average a (reported a comps).
Proof.
  destruct comps as [|c rest].
  - intros Hs. injection Hs as <-. destruct a; reflexivity.
  - unfold calculate_comp_stats, reported. cbv zeta.
    remember (c :: rest) as comps eqn:E. clear E c rest.
    destruct (meanZ_or_zero (omap CompProperty.units comps)) as [x|e] eqn:Hu;
      [|discriminate].
    intros Hs. injection Hs as <-.
    destruct a; unfold average_of, reported_value; cbn [CompStats.avg_price
      CompStats.avg_units CompStats.avg_cap_rate CompStats.avg_price_per_unit
      CompStats.avg_price_per_sqft CompStats.avg_price_per_acre CompStats.avg_noi
      CompStats.avg_unit_rents]; rewrite ?omap_tagged.
    + now apply mean_or_zero_reported.
    + now apply meanZ_or_zero_reported.
    + now apply mean_or_none_reported.
    + now apply mean_or_zero_reported.
    + now apply mean_or_zero_reported.
    + now apply mean_or_none_reported.
    + now apply mean_or_none_reported.
    + rewrite <- omap_twice.
      destruct (omap CompProperty.unit_rents comps) as [|u us]; [reflexivity|].
      generalize (u :: us) as rents. intros rents.
      destruct b; cbn [mbind option_bind rent UnitRentData.one_bed UnitRentData.two_bed
        UnitRentData.three_bed UnitRentData.four_bed]; now apply mean_or_none_reported.
Qed.

End AggregateFacts.

(** [C1], as amended.  When no comparable reports a field (the empty list
    included), the averages of cap rate, price per acre, NOI and the four
    unit rents are undefined, while the averages of price, units, price per
    unit and price per square foot are 0.  When some comparable reports the
    field, its average is [sum / len] of the reported values in the
    interpreter's arithmetic: for the float fields the float sum (added with
    or without compensation, as the interpreter does) divided by the count,
    for the unit counts the exact integer sum divided by the count and
    rounded once.  For [5, 15] this is exactly 10, the arithmetic mean, as
    prices and as unit counts.  The aggregation returns unless the unit
    counts average beyond the largest float; then it raises
    [OverflowError], and it never raises anything else. *)
Theorem calculate_comp_stats_averages `{Builtins} comps a :
  (forall s, calculate_comp_stats comps = Ok s ->
     (reported a comps = [] ->
        average_of a s = if zero_when_empty a then Some 0 else None)
     /\ (forall xs, xs <> [] -> reported a comps = map NFloat xs ->
           average_of a s
           = Some (Py.sum compensated_sum xs / Py.float_of_nat (length xs)))
     /\ (forall ns, ns <> [] -> reported a comps = map NInt ns ->
           average_of a s = Py.truediv (Py.sumZ ns) (Z.of_nat (length ns))))
  /\ ((exists s, calculate_comp_stats comps = Ok s) <-> units_overflow comps = false)
  /\ (forall e, calculate_comp_stats comps = Raise e -> e = Raised OverflowError)
  /\ (exists s, calculate_comp_stats [priced 5; priced 15] = Ok s
                /\ average_of AvgPrice s = Some 10
                /\ is_exact_mean [5; 15] 10 = true)
  /\ (exists s, calculate_comp_stats [with_units 5; with_units 15] = Ok s
                /\ average_of AvgUnits s = Some 10).
Proof.
  split; [|split; [|split; [|split]]].
  - intros s Hs. rewrite (average_of_stats comps s a Hs). split; [|split].
    + now intros ->.
    + intros xs Hne Hr. rewrite Hr. destruct xs as [|x xs]; [now destruct Hne|].
      cbn [map expected_average].
      change (NFloat x :: map NFloat xs) with (map NFloat (x :: xs)).
      rewrite floats_tagged.
      destruct a; first [reflexivity | exfalso].
      unfold reported, reported_value in Hr. rewrite omap_tagged in Hr.
      destruct (omap CompProperty.units comps); discriminate Hr.
    + intros ns Hne Hr. rewrite Hr. destruct ns as [|n ns]; [now destruct Hne|].
      cbn [map expected_average].
      change (NInt n :: map NInt ns) with (map NInt (n :: ns)).
      rewrite ints_tagged.
      destruct a; first [reflexivity | exfalso].
      all: unfold reported, reported_value in Hr; rewrite omap_tagged in Hr;
        match type of Hr with
        | map _ ?l = _ => destruct l; discriminate Hr
        end.
  - split.
    + intros (s & Hs). destruct (units_overflow comps) eqn:Ho; [|reflexivity].
      rewrite (units_overflow_raises comps Ho) in Hs. discriminate Hs.
    + intros Ho. destruct (calculate_comp_stats comps) as [s|e] eqn:Hs; [now exists s|].
      apply calculate_comp_stats_raises in Hs as [_ Hs]. rewrite Ho in Hs. discriminate Hs.
  - intros e He. now apply calculate_comp_stats_raises in He.
  - destruct H as [? ? ? ? ? compensated]. eexists.
    destruct compensated; (split; [vm_compute; reflexivity|]); split; reflexivity.
  - eexists. split; [vm_compute; reflexivity|reflexivity].
Qed.

Lemma calculate_comp_stats_averages_witness :
  exists s,
    @calculate_comp_stats Reference.builtins get_mock_crexi_comps = Ok s
    /\ average_of AvgCapRate s = Some (Py.sum false [5.5; 5.3; 5.4] / 3)
    /\ average_of AvgUnits s = Some 116
    /\ average_of (AvgRent OneBed) s = None.
Proof.
  destruct (@calculate_comp_stats Reference.builtins get_mock_crexi_comps)
    as [s|e] eqn:E; [|vm_compute in E; discriminate E].
  exists s. split; [reflexivity|].
  pose proof (fun a => proj1 (@calculate_comp_stats_averages Reference.builtins
                                 get_mock_crexi_comps a) s E) as Hs.
  split; [|split].
  - apply (proj1 (proj2 (Hs AvgCapRate)) [5.5; 5.3; 5.4]); [discriminate|reflexivity].
  - rewrite (proj2 (proj2 (Hs AvgUnits)) [115; 108; 125]%Z);
      [vm_compute; reflexivity|discriminate|reflexivity].
  - apply (proj1 (Hs (AvgRent OneBed))). reflexivity.
Defined.

(** [C1], as stated, fails in three ways.  On the empty list no comparable
    reports a price, and the average price is the number 0, not an undefined
    value.  Three comparables that all report the price 0.35 have the mean
    0.35, yet their average is 0.3499999999999999, under either summation.
    And a comparable with 2^1024 units has no average at all: the
    aggregation raises [OverflowError]. *)
Lemma averages_neither_undefined_nor_exact :
  ~ (forall (B : Builtins) comps a s,
       calculate_comp_stats comps = Ok s -> reported a comps = [] ->
       average_of a s = None)
  /\ (forall B : Builtins,
        exists s avg,
          calculate_comp_stats [priced 0.35; priced 0.35; priced 0.35] = Ok s
          /\ average_of AvgPrice s = Some avg
          /\ (avg <? 0.35) = true
          /\ is_exact_mean [0.35; 0.35; 0.35] avg = false
          /\ is_exact_mean [0.35; 0.35; 0.35] 0.35 = true)
  /\ (forall B : Builtins,
        calculate_comp_stats [with_units (2 ^ 1024)] = Raise (Raised OverflowError)).
Proof.
  split; [|split].
  - intros Hclaim.
    specialize (Hclaim Reference.builtins [] AvgPrice no_stats eq_refl eq_refl).
    discriminate Hclaim.
  - intros [? ? ? ? ? compensated]. eexists. eexists.
    destruct compensated; (split; [vm_compute; reflexivity|]);
      (split; [reflexivity|]); vm_compute; auto.
  - intros B. vm_compute. reflexivity.
Qed.

(* ====================================================================== *)
(** * Properties of the comparison calculator                              *)
(* ====================================================================== *)

(** A strictly positive float is not zero. *)
Lemma positive_nonzero v : (0 <? v) = true -> (v =? 0) = false.
Proof.
  rewrite FloatAxioms.ltb_spec, FloatAxioms.eqb_spec.
  change (Prim2SF 0) with (S754_zero false).
  destruct (Prim2SF v) as [s|s| |s m e]; try destruct s;
    cbv [SFltb SFeqb SFcompare]; intros E; first [reflexivity|discriminate E].
Qed.

Lemma truthy_nonzero v : Py.truthy v = true -> (v =? 0) = false.
Proof. unfold Py.truthy. now destruct (v =? 0). Qed.

Lemma metric_label_inj m m' : metric_label m = metric_label m' -> m = m'.
Proof. destruct m, m'; simpl; intros E; try reflexivity; discriminate E. Qed.

(** The calculator runs the five metrics in order, each contributing the
    specified block. *)
Lemma calculate_comparisons_blocks om crexi realtor :
  calculate_comparisons om crexi realtor
  = flat_map (fun m => specified_block m om crexi realtor) all_metrics.
Proof.
  unfold calculate_comparisons, all_metrics, flat_map, specified_block,
    emission_guard, subject_value, market_average,
    price_per_unit_block, price_per_sqft_block, cap_rate_block, rent_block,
    result_of, percent_result, point_result, deviation_of, percent_deviation,
    point_deviation, ratio_scale, metric_label, tail_of.
  destruct om as [ppu ppsf cap [r1 r2 r3 r4]].
  destruct crexi as [? ? ? ? acap appu appsf ? ? ?].
  destruct realtor as [? ? ? ? ? ? ? ? ? arents].
  cbn [OMMetrics.price_per_unit OMMetrics.price_per_sqft OMMetrics.cap_rate
       OMMetrics.unit_rents UnitRentData.one_bed UnitRentData.two_bed
       CompStats.avg_price_per_unit CompStats.avg_price_per_sqft
       CompStats.avg_cap_rate CompStats.avg_unit_rents].
  destruct arents as [[a1 a2 a3 a4]|];
    cbn [mbind option_bind rent UnitRentData.one_bed UnitRentData.two_bed app];
    rewrite <- ?app_assoc, ?app_nil_r;
    repeat match goal with
           | |- ?a ++ _ = ?a ++ _ => apply (f_equal (app a))
           end;
    destruct acap as [market|], r1 as [o1|], r2 as [o2|];
    rewrite ?(andb_comm (Py.truthy cap));
    try destruct a1 as [m1|]; try destruct a2 as [m2|];
    repeat match goal with
           | |- context [if ?b then _ else _] => destruct b
           end;
    reflexivity.
Qed.

Lemma in_specified_block r m om crexi realtor :
  In r (specified_block m om crexi realtor) ->
  emission_guard m om crexi realtor = true
  /\ exists s v, subject_value m om = Some s
                 /\ market_average m crexi realtor = Some v
                 /\ r = result_of m s v.
Proof.
  unfold specified_block.
  destruct (subject_value m om) as [s|]; [|intros []].
  destruct (market_average m crexi realtor) as [v|]; [|intros []].
  destruct (emission_guard m om crexi realtor); [|intros []].
  intros [<-|[]]. split; [reflexivity|]. now exists s, v.
Qed.

Lemma in_calculate_comparisons r om crexi realtor :
  In r (calculate_comparisons om crexi realtor) ->
  exists m s v,
    emission_guard m om crexi realtor = true
    /\ subject_value m om = Some s
    /\ market_average m crexi realtor = Some v
    /\ r = result_of m s v.
Proof.
  rewrite calculate_comparisons_blocks, in_flat_map.
  intros (m & _ & Hin). apply in_specified_block in Hin.
  destruct Hin as (Hg & s & v & Hs & Hv & ->). now exists m, s, v.
Qed.

Lemma guard_market_nonzero m om crexi realtor s v :
  emission_guard m om crexi realtor = true ->
  subject_value m om = Some s ->
  market_average m crexi realtor = Some v ->
  (v =? 0) = false.
Proof.
  unfold emission_guard. intros Hg Hs Hv. rewrite Hs, Hv in Hg.
  destruct m; try (now apply positive_nonzero);
    apply andb_prop in Hg as [_ Hm]; now apply truthy_nonzero.
Qed.

(** [C3], as amended.  A comparison is emitted exactly when the code's guard
    holds: for price per unit and price per square foot, a market average
    strictly above 0; for the cap rate and the two rents, a subject value and
    a market average that are both present and non-zero.  Whenever a
    comparison is emitted, both sides are present and the market average is
    non-zero; the calculator is a total function and raises nothing. *)
Theorem calculate_comparisons_emission m om crexi realtor :
  (emitted m (calculate_comparisons om crexi realtor)
     <-> emission_guard m om crexi realtor = true)
  /\ (emitted m (calculate_comparisons om crexi realtor)
     -> both_present_market_nonzero m om crexi realtor).
Proof.
  assert (Hfwd : emitted m (calculate_comparisons om crexi realtor) ->
                 emission_guard m om crexi realtor = true
                 /\ both_present_market_nonzero m om crexi realtor).
  { intros (r & Hin & Hname).
    apply in_calculate_comparisons in Hin
      as (m' & s & v & Hg & Hs & Hv & ->).
    apply metric_label_inj in Hname. subst m'.
    split; [exact Hg|]. exists s, v. split; [exact Hs|]. split; [exact Hv|].
    now apply (guard_market_nonzero m om crexi realtor s v). }
  split; [split|].
  - intros He. now apply Hfwd.
  - intros Hg. unfold emitted.
    assert (Hb : exists r, In r (specified_block m om crexi realtor)
                           /\ ComparisonResult.metric_name r = metric_label m).
    { unfold specified_block. rewrite Hg.
      unfold emission_guard in Hg.
      destruct (subject_value m om) as [s|]; [|discriminate].
      destruct (market_average m crexi realtor) as [v|]; [|discriminate].
      exists (result_of m s v). split; [now left|reflexivity]. }
    destruct Hb as (r & Hin & Hname). exists r. split; [|exact Hname].
    rewrite calculate_comparisons_blocks, in_flat_map. exists m.
    split; [destruct m; simpl; tauto|exact Hin].
  - intros He. now apply Hfwd.
Qed.

Lemma calculate_comparisons_emission_witness :
  emitted CapRate (calculate_comparisons mock_metrics (stats_with_cap_rate 5.5) no_stats)
  /\ both_present_market_nonzero OneBedRent mock_metrics no_stats mock_realtor_stats.
Proof.
  split.
  - apply (proj1 (calculate_comparisons_emission CapRate mock_metrics
                    (stats_with_cap_rate 5.5) no_stats)).
    reflexivity.
  - apply (proj2 (calculate_comparisons_emission OneBedRent mock_metrics no_stats
                    mock_realtor_stats)).
    apply (proj1 (calculate_comparisons_emission OneBedRent mock_metrics no_stats
                    mock_realtor_stats)).
    reflexivity.
Defined.

(** [C3], as stated, fails in two ways.  With a market average price per
    unit of -5 both sides are present and the market average is not zero, yet
    no price-per-unit comparison is emitted; and with a subject 1-bedroom
    rent reported as 0 against the built-in market rents both sides are
    present and the market average is not zero, yet no 1-bedroom comparison
    is emitted. *)
Lemma emission_rule_counterexamples :
  (both_present_market_nonzero PricePerUnit mock_metrics
     (stats_with_price_per_unit (-5)) no_stats
   /\ ~ emitted PricePerUnit
         (calculate_comparisons mock_metrics (stats_with_price_per_unit (-5)) no_stats))
  /\ (both_present_market_nonzero OneBedRent zero_rent_metrics no_stats mock_realtor_stats
      /\ ~ emitted OneBedRent
            (calculate_comparisons zero_rent_metrics no_stats mock_realtor_stats)).
Proof.
  split; split.
  - exists 285417, (-5). repeat split; reflexivity.
  - intros (r & Hin & _). vm_compute in Hin. exact Hin.
  - exists 0, (4585 / 3). repeat split; reflexivity.
  - intros (r & Hin & _). vm_compute in Hin. exact Hin.
Qed.

Lemma decimal_head n :
  exists c rest, Py.decimal n = String c rest /\ c <> "+"%char.
Proof.
  unfold Py.decimal, NilZero.string_of_uint.
  destruct (N.to_uint (Z.to_N n)); cbn [NilEmpty.string_of_uint];
    eexists; eexists; (split; [reflexivity|discriminate]).
Qed.

(** A formatted number never starts with a plus sign. *)
Lemma format_1f_head x :
  exists c rest, Py.format_1f x = String c rest /\ c <> "+"%char.
Proof.
  unfold Py.format_1f.
  destruct (Prim2SF x) as [s|s| |s m e]; try destruct s; cbn [Py.minus_sign String.append];
    try (eexists; eexists; (split; [reflexivity|discriminate])).
  destruct (decimal_head (Py.round_half_even (10 * Z.pos m) e / 10))
    as (c & rest & -> & Hc).
  cbn [String.append]. eexists; eexists; (split; [reflexivity|exact Hc]).
Qed.

(** The annotation starts with [+] exactly when the deviation is positive. *)
Lemma comment_plus d tail :
  (exists rest, comment d tail = String "+" rest) <-> (0 <? d) = true.
Proof.
  unfold comment, sign_prefix. destruct (0 <? d); cbn [String.append].
  - split; [reflexivity|]. intros _. eexists. reflexivity.
  - destruct (format_1f_head d) as (c & r & -> & Hc). cbn [String.append].
    split; [|discriminate]. intros (rest & E). injection E as E _. congruence.
Qed.

(** [C4], as amended.  Every emitted result belongs to one of the five
    metrics: it carries the metric's name, the subject's value of that
    metric, the market average of that metric, and the deviation of the
    metric's class between the two: for the ratio-scale metrics (price per
    unit, price per square foot, unit rents)
    [(subject - market) / market * 100], for the cap rate the point
    difference [subject - market]; its annotation starts with [+] exactly
    when the deviation is positive.  Subject 285417 against market 291304
    yields about -2.02 (annotated [-2.0%]), and cap rate 5.4 against 5.5
    yields -0.1 up to float rounding (annotated [-0.1pp]). *)
Theorem comparison_deviation_by_class om crexi realtor r :
  In r (calculate_comparisons om crexi realtor) ->
  (exists m s v,
     subject_value m om = Some s
     /\ market_average m crexi realtor = Some v
     /\ r.(ComparisonResult.metric_name) = metric_label m
     /\ r.(ComparisonResult.om_value) = Some s
     /\ r.(ComparisonResult.market_value) = Some v
     /\ r.(ComparisonResult.deviation_percent)
        = Some (if ratio_scale m then ((s - v) / v) * 100 else s - v)
     /\ forall d, r.(ComparisonResult.deviation_percent) = Some d ->
          r.(ComparisonResult.deviation_comment)
          = (if 0 <? d then "+" else "") +:+ Py.format_1f d +:+ tail_of m
          /\ ((exists rest, r.(ComparisonResult.deviation_comment) = String "+" rest)
              <-> (0 <? d) = true))
  /\ calculate_comparisons mock_metrics (stats_with_price_per_unit 291304) no_stats
     = [ComparisonResult.mk "Price per Unit" (Some 285417) (Some 291304)
          (Some (-2.0209128607914755)) "-2.0% vs CREXi market"]
  /\ calculate_comparisons mock_metrics (stats_with_cap_rate 5.5) no_stats
     = [ComparisonResult.mk "Cap Rate" (Some 5.4) (Some 5.5)
          (Some (5.4 - 5.5)) "-0.1pp vs CREXi market"]
  /\ (abs ((5.4 - 5.5) - (-0.1)) <? 0x1p-50) = true.
Proof.
  intros Hin. split; [|repeat split; vm_compute; reflexivity].
  apply in_calculate_comparisons in Hin as (m & s & v & _ & Hs & Hv & ->).
  exists m, s, v. split; [exact Hs|]. split; [exact Hv|].
  do 4 (split; [reflexivity|]).
  intros d Hd. cbn in Hd. injection Hd as <-.
  split; [reflexivity|apply comment_plus].
Qed.

Lemma comparison_deviation_by_class_witness :
  exists m s v,
    subject_value m mock_metrics = Some s
    /\ market_average m (stats_with_price_per_sqft 313) no_stats = Some v
    /\ mock_sqft_result.(ComparisonResult.metric_name) = metric_label m
    /\ mock_sqft_result.(ComparisonResult.om_value) = Some s
    /\ mock_sqft_result.(ComparisonResult.market_value) = Some v
    /\ mock_sqft_result.(ComparisonResult.deviation_percent)
       = Some (if ratio_scale m then ((s - v) / v) * 100 else s - v)
    /\ forall d, mock_sqft_result.(ComparisonResult.deviation_percent) = Some d ->
         mock_sqft_result.(ComparisonResult.deviation_comment)
         = (if 0 <? d then "+" else "") +:+ Py.format_1f d +:+ tail_of m
         /\ ((exists rest,
                mock_sqft_result.(ComparisonResult.deviation_comment) = String "+" rest)
             <-> (0 <? d) = true).
Proof.
  apply (proj1 (comparison_deviation_by_class mock_metrics
                  (stats_with_price_per_sqft 313) no_stats mock_sqft_result
                  ltac:(vm_compute; tauto))).
Defined.


(** [C4], as stated, fails on its example: for subject 285417 and market
    291304 the deviation is below -2.02, more than 0.06 away from -1.96. *)
Lemma example_deviation_is_not_minus_1_96 :
  map ComparisonResult.deviation_percent
    (calculate_comparisons mock_metrics (stats_with_price_per_unit 291304) no_stats)
  = [Some example_deviation]
  /\ (example_deviation <? -2.02) = true
  /\ (abs (example_deviation - (-1.96)) <? 0.06) = false.
Proof. vm_compute. auto. Qed.

(** [C5].  The calculator evaluates the five metrics price per unit, price
    per square foot, cap rate, 1-bedroom rent and 2-bedroom rent in this
    order: the names of its output are a subsequence of the five names in
    that order, no 3-bedroom or 4-bedroom comparison ever appears, and with
    the built-in data and no filters (whose statistics are computed without
    an error) all five appear. *)
Theorem comparisons_in_fixed_order `{Builtins} om crexi realtor :
  sublist (labels (calculate_comparisons om crexi realtor))
    ["Price per Unit"; "Price per SqFt"; "Cap Rate"; "1BR Rent"; "2BR Rent"]%string
  /\ ~ In "3BR Rent"%string (labels (calculate_comparisons om crexi realtor))
  /\ ~ In "4BR Rent"%string (labels (calculate_comparisons om crexi realtor))
  /\ labels (calculate_comparisons om crexi realtor)
     = map metric_label
         (List.filter (fun m => emission_guard m om crexi realtor) all_metrics)
  /\ exists crexi_stats realtor_stats,
       calculate_comp_stats (apply_filters get_mock_crexi_comps CompFilterRequest.unset)
       = Ok crexi_stats
       /\ calculate_comp_stats (apply_filters get_mock_realtor_comps CompFilterRequest.unset)
          = Ok realtor_stats
       /\ labels (calculate_comparisons mock_metrics crexi_stats realtor_stats)
          = ["Price per Unit"; "Price per SqFt"; "Cap Rate"; "1BR Rent"; "2BR Rent"]%string.
Proof.
  assert (E : labels (calculate_comparisons om crexi realtor)
              = map metric_label
                  (List.filter (fun m => emission_guard m om crexi realtor) all_metrics)).
  { rewrite calculate_comparisons_blocks. unfold labels, all_metrics, specified_block.
    cbn [flat_map List.filter].
    assert (B : forall m,
               map ComparisonResult.metric_name
                 match subject_value m om, market_average m crexi realtor with
                 | Some s, Some v =>
                     if emission_guard m om crexi realtor then [result_of m s v] else []
                 | _, _ => []
                 end
               = if emission_guard m om crexi realtor then [metric_label m] else []).
    { intros m. unfold emission_guard.
      destruct (subject_value m om), (market_average m crexi realtor); try reflexivity.
      now destruct (match m with PricePerUnit | PricePerSqft => _ | _ => _ end). }
    rewrite !map_app, !B, app_nil_r.
    repeat match goal with
           | |- context [emission_guard ?m om crexi realtor] =>
               destruct (emission_guard m om crexi realtor)
           end; reflexivity. }
  split; [|split; [|split; [|split]]].
  - rewrite E. cbn [all_metrics List.filter].
    repeat match goal with
           | |- context [emission_guard ?m om crexi realtor] =>
               destruct (emission_guard m om crexi realtor)
           end; cbn [map metric_label];
      repeat first [apply sublist_nil | apply sublist_skip | apply sublist_cons].
  - rewrite E, in_map_iff. intros (m & Hm & _). destruct m; discriminate Hm.
  - rewrite E, in_map_iff. intros (m & Hm & _). destruct m; discriminate Hm.
  - exact E.
  - clear E. destruct H as [? ? ? ? ? compensated].
    destruct compensated; eexists; eexists;
      (split; [vm_compute; reflexivity|]); (split; [vm_compute; reflexivity|]);
      vm_compute; reflexivity.
Qed.

(* ====================================================================== *)
(** * Properties of the input normalizer and of the endpoint               *)
(* ====================================================================== *)

Lemma bind_Ok {A B} (m : result A) (k : A -> result B) (b : B) :
  m ≫= k = Ok b -> exists a, m = Ok a /\ k a = Ok b.
Proof. destruct m as [a|e]; [|discriminate]. intros Hk. now exists a. Qed.

Section NormalizerFacts.
Context `{Builtins}.

(** A successful parse read every field of the record from the row. *)
Lemma parse_row_fields r om :
  parse_row r = Ok om ->
  let ps := om.(OMData.property_summary) in
  let ur := om.(OMData.unit_rents) in
  let fm := om.(OMData.financials) in
  let ve := om.(OMData.vacancy_egi) in
  float_field r "cap_rate" = Ok ps.(PropertySummary.cap_rate)
  /\ int_field r "rentable_sqft" = Ok ps.(PropertySummary.rentable_sqft)
  /\ float_field r "avg_sqft_per_unit" = Ok ps.(PropertySummary.avg_sqft_per_unit)
  /\ float_field r "asking_price" = Ok ps.(PropertySummary.asking_price)
  /\ float_field r "lot_size_acres" = Ok ps.(PropertySummary.lot_size_acres)
  /\ int_field r "total_units" = Ok ps.(PropertySummary.total_units)
  /\ rent_field r "one_bed_rent" = Ok ur.(UnitRentData.one_bed)
  /\ rent_field r "two_bed_rent" = Ok ur.(UnitRentData.two_bed)
  /\ rent_field r "three_bed_rent" = Ok ur.(UnitRentData.three_bed)
  /\ rent_field r "four_bed_rent" = Ok ur.(UnitRentData.four_bed)
  /\ float_field r "noi" = Ok fm.(FinancialMetrics.noi)
  /\ float_field r "cap_rate" = Ok fm.(FinancialMetrics.cap_rate)
  /\ float_field r "price_per_sqft" = Ok fm.(FinancialMetrics.price_per_sqft)
  /\ float_field r "price_per_unit" = Ok fm.(FinancialMetrics.price_per_unit)
  /\ float_field r "price_per_acre" = Ok fm.(FinancialMetrics.price_per_acre)
  /\ float_field r "vacancy_rate" = Ok ve.(VacancyEGIData.vacancy_rate)
  /\ float_field r "gross_potential_rent" = Ok ve.(VacancyEGIData.gross_potential_rent)
  /\ ve.(VacancyEGIData.effective_gross_income)
     = ve.(VacancyEGIData.gross_potential_rent) * (1 - ve.(VacancyEGIData.vacancy_rate)).
Proof.
  unfold parse_row. intros Hp.
  repeat match type of Hp with
         | _ ≫= _ = Ok _ =>
             let x := fresh "x" in
             let Hx := fresh "Hx" in
             apply bind_Ok in Hp as (x & Hx & Hp)
         end.
  injection Hp as <-. cbn. repeat split; assumption.
Qed.

Lemma float_field_missing r k : r !! k = None -> float_field r k = Ok 0.
Proof. unfold float_field. now intros ->. Qed.

Lemma int_field_missing r k : r !! k = None -> int_field r k = Ok 0%Z.
Proof. unfold int_field. intros Hk. now rewrite (float_field_missing r k Hk). Qed.

Lemma rent_field_missing r k : r !! k = None -> rent_field r k = Ok None.
Proof. unfold rent_field. now intros ->. Qed.

Lemma float_field_reads r k s x :
  r !! k = Some (Some s) -> float_of_str s = Some x -> float_field r k = Ok x.
Proof. unfold float_field. now intros -> ->. Qed.

(** The parser raises nothing but the client error 400. *)
Lemma parse_csv_om_data_raises text e :
  parse_csv_om_data text = Raise e ->
  exists cause, e = HTTPException 400 ("Error parsing CSV: " +:+ str_of_exn cause).
Proof.
  unfold parse_csv_om_data.
  match goal with
  | |- try_except ?m _ = _ -> _ => destruct m as [om|cause]
  end; cbn [try_except]; [discriminate|].
  intros E. injection E as <-. now exists cause.
Qed.

End NormalizerFacts.

(** [C6].  Every record of the normalizer, parsed from an uploaded row or
    taken from the built-in default, has
    [effective_gross_income = gross_potential_rent * (1 - vacancy_rate)];
    the example row of the template parses to the built-in record, whose
    effective gross income is exactly 2162000. *)
Theorem effective_gross_income_invariant `{Builtins} :
  (forall text om, parse_csv_om_data text = Ok om -> egi_invariant om)
  /\ (forall r om, parse_row r = Ok om -> egi_invariant om)
  /\ egi_invariant get_mock_om_data
  /\ ((forall s x, In (s, x) example_numerals -> float_of_str s = Some x) ->
      parse_row example_row = Ok get_mock_om_data
      /\ get_mock_om_data.(OMData.vacancy_egi).(VacancyEGIData.effective_gross_income)
         = 2162000).
Proof.
  assert (Hrow : forall r om, parse_row r = Ok om -> egi_invariant om).
  { intros r om Hp. apply parse_row_fields in Hp. unfold egi_invariant. tauto. }
  split; [|split; [exact Hrow|split; [reflexivity|]]].
  - intros text om. unfold parse_csv_om_data, try_except.
    destruct (csv_first_row text) as [r|e] eqn:Er; cbn; [|discriminate].
    destruct (parse_row r) as [om'|e] eqn:Ep; [|discriminate].
    intros E. injection E as <-. now apply (Hrow r).
  - intros Hread. split; [|reflexivity].
    assert (Hf : forall k t x,
               example_row !! k = Some (Some t) -> In (t, x) example_numerals ->
               float_field example_row k = Ok x).
    { intros k t x Hk Hin. apply (float_field_reads example_row k t x Hk).
      now apply Hread. }
    unfold parse_row, int_field, rent_field.
    rewrite (Hf "cap_rate" "5.4" 5.4), (Hf "rentable_sqft" "108750" 108750),
      (Hf "avg_sqft_per_unit" "920" 920), (Hf "asking_price" "34250000" 34250000),
      (Hf "lot_size_acres" "1.85" 1.85), (Hf "total_units" "120" 120),
      (Hf "one_bed_rent" "1650" 1650), (Hf "two_bed_rent" "2100" 2100),
      (Hf "three_bed_rent" "2450" 2450), (Hf "four_bed_rent" "2800" 2800),
      (Hf "noi" "1890000" 1890000), (Hf "price_per_sqft" "315" 315),
      (Hf "price_per_unit" "285417" 285417),
      (Hf "price_per_acre" "18513514" 18513514),
      (Hf "vacancy_rate" "0.06" 0.06),
      (Hf "gross_potential_rent" "2300000" 2300000);
      first [ vm_compute; reflexivity | vm_compute; tauto ].
Qed.

Lemma effective_gross_income_invariant_witness :
  (@parse_row Reference.builtins example_row = Ok get_mock_om_data
   /\ get_mock_om_data.(OMData.vacancy_egi).(VacancyEGIData.effective_gross_income)
      = 2162000)
  /\ egi_invariant get_mock_om_data.
Proof.
  split.
  - apply (proj2 (proj2 (proj2 (@effective_gross_income_invariant Reference.builtins)))).
    intros s x Hin. simpl in Hin.
    repeat (destruct Hin as [Hin|Hin];
            [injection Hin as <- <-; vm_compute; reflexivity|]).
    destruct Hin.
  - apply (proj1 (proj2 (@effective_gross_income_invariant Reference.builtins))
             example_row get_mock_om_data).
    vm_compute. reflexivity.
Defined.

(** [C7], on the code.  When the upload decodes but does not parse, the
    parser raises the client error 400 with the message
    [Error parsing CSV: ...]; the handler of [analyze_om] catches it and
    the caller receives the server error 500 instead. *)
Theorem unparseable_upload_reported_as_500 `{Builtins} filters content text e :
  decode_utf8 content = Some text ->
  parse_csv_om_data text = Raise e ->
  (exists cause, e = HTTPException 400 ("Error parsing CSV: " +:+ str_of_exn cause))
  /\ analyze_om filters (Some content)
     = Raise (HTTPException 500 ("Analysis failed: " +:+ str_of_exn e)).
Proof.
  intros Hd Hp. split; [now apply (parse_csv_om_data_raises text)|].
  unfold analyze_om, try_except. rewrite Hd. cbn. now rewrite Hp.
Qed.

Lemma unparseable_upload_reported_as_500_witness :
  @analyze_om Reference.builtins CompFilterRequest.unset (Some unreadable_upload)
  = Raise (HTTPException 500
             "Analysis failed: 400: Error parsing CSV: could not convert string to float").
Proof.
  apply (proj2 (@unparseable_upload_reported_as_500 Reference.builtins
                  CompFilterRequest.unset unreadable_upload unreadable_upload
                  (HTTPException 400 "Error parsing CSV: could not convert string to float")
                  eq_refl ltac:(vm_compute; reflexivity))).
Defined.

(** [C8], as amended.  A numeric column that the row lacks parses to 0 (the
    float 0.0, or the int 0 for [rentable_sqft] and [total_units]), except
    the four bedroom rents, which parse to [None]; a row with none of the
    named columns parses successfully to these defaults. *)
Theorem missing_column_defaults `{Builtins} :
  (forall r om col,
     r !! column_name col = None ->
     parse_row r = Ok om ->
     Forall (eq (missing_default col)) (parsed_values col om))
  /\ parse_row ∅ = Ok all_defaults.
Proof.
  split; [|reflexivity].
  intros r om col Hmiss Hp. apply parse_row_fields in Hp. cbn zeta in Hp.
  destruct om as [[? ? ? ? ? ? ? ?] [? ? ? ?] [? ? ? ? ?] [? ? ?]]. cbn in Hp.
  destruct col as [| | | | | |b| | | | | |]; try destruct b; cbn in Hmiss;
    unfold parsed_values, missing_default; cbn;
    repeat match goal with
           | Hf : float_field r ?k = Ok _, Hm : r !! ?k = None |- _ =>
               rewrite (float_field_missing r k Hm) in Hf; injection Hf as <-
           | Hf : int_field r ?k = Ok _, Hm : r !! ?k = None |- _ =>
               rewrite (int_field_missing r k Hm) in Hf; injection Hf as <-
           | Hf : rent_field r ?k = Ok _, Hm : r !! ?k = None |- _ =>
               rewrite (rent_field_missing r k Hm) in Hf; injection Hf as <-
           | Hc : _ /\ _ |- _ => destruct Hc
           end;
    repeat constructor.
Qed.

Lemma missing_column_defaults_witness :
  Forall (eq (Some (NFloat 0))) (parsed_values ColNoi all_defaults).
Proof.
  apply (proj1 (@missing_column_defaults Reference.builtins) ∅ all_defaults ColNoi).
  - reflexivity.
  - reflexivity.
Defined.

(** [C8], as stated, fails: a row without the column [one_bed_rent] parses
    to a record whose 1-bedroom rent is [None], not 0. *)
Lemma missing_rent_parses_to_none :
  ~ (forall (B : Builtins) r om col,
       r !! column_name col = None ->
       parse_row r = Ok om ->
       Forall (fun v => is_zero v = true) (parsed_values col om)).
Proof.
  intros Hclaim.
  specialize (Hclaim Reference.builtins ∅ all_defaults (ColRent OneBed) eq_refl eq_refl).
  inversion Hclaim as [|v vs Hv _]. discriminate Hv.
Qed.

(* ====================================================================== *)
(** * Further properties of the filter                                     *)
(* ====================================================================== *)

Lemma filter_twice {A} (p q : A -> bool) (l : list A) :
  List.filter p (List.filter q l) = List.filter (fun x => q x && p x) l.
Proof.
  induction l as [|x l IH]; [reflexivity|]. cbn [List.filter].
  destruct (q x); cbn [List.filter andb]; [destruct (p x)|]; now rewrite IH.
Qed.

Lemma filter_all {A} (l : list A) : List.filter (fun _ => true) l = l.
Proof. induction l as [|x l IH]; [reflexivity|]. cbn. now f_equal. Qed.

(** [X1].  Filtering is idempotent: applying the same criteria to an already
    filtered list changes nothing. *)
Theorem apply_filters_idempotent comps filters :
  apply_filters (apply_filters comps filters) filters = apply_filters comps filters.
Proof.
  rewrite !apply_filters_filter, filter_twice. apply List.filter_ext.
  intros c. now destruct (reaches_append filters c).
Qed.

(** [X2].  Two criteria can be applied in either order: the bounds are
    tested on each comparable independently of the others. *)
Theorem apply_filters_commute comps f g :
  apply_filters (apply_filters comps f) g = apply_filters (apply_filters comps g) f.
Proof.
  rewrite !apply_filters_filter, !filter_twice. apply List.filter_ext.
  intros c. apply andb_comm.
Qed.

(** [X3].  Filtering a concatenation is concatenating the filtered lists, and
    the output is never longer than the input. *)
Theorem apply_filters_app comps comps' filters :
  apply_filters (comps ++ comps') filters
  = apply_filters comps filters ++ apply_filters comps' filters
  /\ (length (apply_filters comps filters) <= length comps)%nat.
Proof.
  rewrite !apply_filters_filter. split.
  - apply List.filter_app.
  - apply List.filter_length_le.
Qed.

Lemma no_filterable_field_survives filters comp :
  no_filterable_field comp -> reaches_append filters comp = true.
Proof.
  intros Hno. rewrite reaches_append_survives. unfold survives.
  apply forallb_forall. intros b _.
  now rewrite (missing_field_not_excluded b filters comp (Hno b)).
Qed.

Lemma filter_blank_identity comps filters :
  Forall no_filterable_field comps ->
  List.filter (reaches_append filters) comps = comps.
Proof.
  intros Hall. induction Hall as [|c rest Hc _ IH]; [reflexivity|].
  cbn [List.filter]. rewrite (no_filterable_field_survives filters c Hc).
  now f_equal.
Qed.

(** [X4].  A list of comparables that report none of the fields the bounds
    refer to (price, units, distance, cap rate, price per unit, per square
    foot, per acre) passes every criteria unchanged. *)
Theorem apply_filters_keeps_blank_comparables comps filters :
  Forall no_filterable_field comps ->
  apply_filters comps filters = comps.
Proof.
  intros Hall. rewrite apply_filters_filter. now apply filter_blank_identity.
Qed.

Lemma apply_filters_keeps_blank_comparables_witness :
  apply_filters
    [CompProperty.mk "realtor" "" None None None None None None None None None]
    at_least_100
  = [CompProperty.mk "realtor" "" None None None None None None None None None].
Proof.
  apply (apply_filters_keeps_blank_comparables
           [CompProperty.mk "realtor" "" None None None None None None None None None]
           at_least_100).
  constructor; [|constructor]. intros b. destruct b; reflexivity.
Defined.

(* ====================================================================== *)
(** * Properties of the market data gateway                                *)
(* ====================================================================== *)

Lemma for_each_length {A B} (f : A -> result B) (xs : list A) (ys : list B) :
  for_each f xs = Ok ys -> length ys = length xs.
Proof.
  revert ys. induction xs as [|x xs IH]; intros ys; cbn [for_each].
  - intros E. injection E as <-. reflexivity.
  - intros E. apply bind_Ok in E as (y & _ & E).
    apply bind_Ok in E as (ys' & Hys & E). injection E as <-.
    cbn [length]. f_equal. now apply IH.
Qed.

Lemma for_each_Forall {A B} (f : A -> result B) (P : B -> Prop) (xs : list A)
    (ys : list B) :
  (forall x y, f x = Ok y -> P y) ->
  for_each f xs = Ok ys -> Forall P ys.
Proof.
  intros HP. revert ys. induction xs as [|x xs IH]; intros ys; cbn [for_each].
  - intros E. injection E as <-. constructor.
  - intros E. apply bind_Ok in E as (y & Hy & E).
    apply bind_Ok in E as (ys' & Hys & E). injection E as <-.
    constructor; [now apply (HP x)|now apply IH].
Qed.

Section GatewayFacts.
Context `{Builtins}.

Lemma value_if_present cond record v :
  value_if cond record = Ok (Some v) -> cond = true.
Proof. destruct cond; [reflexivity|discriminate]. Qed.

Lemma record_is_exclusive record key n1 n2 :
  n1 <> n2 -> record_is record key n1 = true -> record_is record key n2 = false.
Proof.
  unfold record_is. intros Hne.
  destruct (record !! key) as [[| |s]|]; try discriminate.
  intros E1. apply String.eqb_eq in E1. subst s.
  now apply String.eqb_neq.
Qed.

Ltac two_names_at_once :=
  match goal with
  | H1 : record_is ?r ?k ?n1 = true, H2 : record_is ?r ?k ?n2 = true |- _ =>
      rewrite (record_is_exclusive r k n1 n2 ltac:(discriminate) H1) in H2;
      discriminate H2
  end.

Ltac present_conditions :=
  repeat match goal with
         | Hv : value_if _ _ = Ok (Some _) |- _ => apply value_if_present in Hv
         | Hv : value_if _ _ = Ok None |- _ => clear Hv
         | Hc : _ && _ = true |- _ => apply andb_prop in Hc as [_ Hc]
         end.

(** A CREXi record fills at most one metric of the comparable it becomes. *)
Lemma crexi_comp_single_metric geography record c :
  crexi_comp geography record = Ok c ->
  (count_present (crexi_metrics c) <= 1)%nat
  /\ c.(CompProperty.units) = None
  /\ c.(CompProperty.distance_miles) = None
  /\ c.(CompProperty.unit_rents) = None.
Proof.
  unfold crexi_comp. intros E.
  repeat match type of E with
         | _ ≫= _ = Ok _ =>
             let x := fresh "x" in
             let Hx := fresh "Hx" in
             apply bind_Ok in E as (x & Hx & E)
         end.
  injection E as <-. cbn. repeat split; try reflexivity.
  unfold count_present.
  destruct x as [?|], x0 as [?|], x1 as [?|], x2 as [?|], x3 as [?|], x4 as [?|];
    cbn; try lia; present_conditions; two_names_at_once.
Qed.

(** A Realtor record becomes a comparable that reports rents only. *)
Lemma realtor_comp_rents_only geography record c :
  realtor_comp geography record = Ok c ->
  no_filterable_field c
  /\ c.(CompProperty.noi) = None
  /\ exists u, c.(CompProperty.unit_rents) = Some u
               /\ (count_present (rents_of u) <= 1)%nat.
Proof.
  unfold realtor_comp, rent_if. intros E.
  repeat match type of E with
         | _ ≫= _ = Ok _ =>
             let x := fresh "x" in
             let Hx := fresh "Hx" in
             apply bind_Ok in E as (x & Hx & E)
         end.
  injection E as <-. split; [intros b; destruct b; reflexivity|].
  split; [reflexivity|]. eexists. split; [reflexivity|].
  unfold count_present, rents_of. cbn.
  destruct x as [?|], x0 as [?|], x1 as [?|], x2 as [?|];
    cbn; try lia; present_conditions; two_names_at_once.
Qed.

End GatewayFacts.

Section GatewayProperties.
Context `{Builtins}.

(** The gateway either gives up or turns every record into a comparable. *)
Lemma get_supabase_market_data_cases geography asset_type :
  get_supabase_market_data geography asset_type = ([], [])
  \/ exists query crexi_data realtor_data crexi_comps realtor_comps,
       supabase = Some query
       /\ query "CREXi"%string geography asset_type = Ok crexi_data
       /\ query "Realtor.com"%string geography asset_type = Ok realtor_data
       /\ for_each (crexi_comp geography) crexi_data = Ok crexi_comps
       /\ for_each (realtor_comp geography) realtor_data = Ok realtor_comps
       /\ get_supabase_market_data geography asset_type = (crexi_comps, realtor_comps).
Proof.
  unfold get_supabase_market_data.
  destruct supabase as [query|]; [|now left].
  destruct (query "CREXi"%string geography asset_type) as [cd|e] eqn:Ec; [|now left].
  cbn. destruct (for_each (crexi_comp geography) cd) as [cc|e] eqn:Ecc; [|now left].
  cbn. destruct (query "Realtor.com"%string geography asset_type) as [rd|e] eqn:Er;
    [|now left].
  cbn. destruct (for_each (realtor_comp geography) rd) as [rc|e] eqn:Erc; [|now left].
  cbn. right. exists query, cd, rd, cc, rc. now rewrite Ec, Er.
Qed.

(** [X5].  The gateway is all or nothing: either both lists are empty, or
    both queries succeeded and each list holds exactly one comparable per
    store record. *)
Theorem market_data_all_or_nothing geography asset_type :
  get_supabase_market_data geography asset_type = ([], [])
  \/ exists query crexi_data realtor_data,
       supabase = Some query
       /\ query "CREXi"%string geography asset_type = Ok crexi_data
       /\ query "Realtor.com"%string geography asset_type = Ok realtor_data
       /\ length (get_supabase_market_data geography asset_type).1 = length crexi_data
       /\ length (get_supabase_market_data geography asset_type).2 = length realtor_data.
Proof.
  destruct (get_supabase_market_data_cases geography asset_type)
    as [E|(query & cd & rd & cc & rc & Hs & Hc & Hr & Hcc & Hrc & E)]; [now left|].
  right. exists query, cd, rd. rewrite E. cbn.
  repeat split; try assumption.
  - now apply (for_each_length (crexi_comp geography)).
  - now apply (for_each_length (realtor_comp geography)).
Qed.

(** [X6].  When the Realtor query raises, the CREXi comparables that were
    already read are dropped as well. *)
Theorem realtor_failure_drops_crexi geography asset_type query e :
  supabase = Some query ->
  query "Realtor.com"%string geography asset_type = Raise e ->
  get_supabase_market_data geography asset_type = ([], []).
Proof.
  intros Hs Hr.
  destruct (get_supabase_market_data_cases geography asset_type)
    as [E|(q & cd & rd & cc & rc & Hs' & _ & Hr' & _)]; [exact E|].
  rewrite Hs in Hs'. injection Hs' as <-. rewrite Hr in Hr'. discriminate Hr'.
Qed.

(** [X7].  Every comparable read from the store carries at most one number:
    a CREXi comparable reports at most one of price, cap rate, price per
    unit, per square foot, per acre and NOI, and never units, distance or
    rents; a Realtor comparable reports nothing but at most one rent. *)
Theorem store_comparables_single_metric geography asset_type :
  Forall (fun c => (count_present (crexi_metrics c) <= 1)%nat
                   /\ c.(CompProperty.units) = None
                   /\ c.(CompProperty.distance_miles) = None
                   /\ c.(CompProperty.unit_rents) = None)
    (get_supabase_market_data geography asset_type).1
  /\ Forall (fun c => no_filterable_field c
                      /\ c.(CompProperty.noi) = None
                      /\ exists u, c.(CompProperty.unit_rents) = Some u
                                   /\ (count_present (rents_of u) <= 1)%nat)
       (get_supabase_market_data geography asset_type).2.
Proof.
  destruct (get_supabase_market_data_cases geography asset_type)
    as [E|(query & cd & rd & cc & rc & _ & _ & _ & Hcc & Hrc & E)]; rewrite E; cbn.
  - split; constructor.
  - split.
    + apply (for_each_Forall (crexi_comp geography) _ cd cc); [|exact Hcc].
      intros x y. apply crexi_comp_single_metric.
    + apply (for_each_Forall (realtor_comp geography) _ rd rc); [|exact Hrc].
      intros x y. apply realtor_comp_rents_only.
Qed.

(** [X8].  The rent listings read from the store pass every filter: no
    criteria can exclude them. *)
Theorem store_rent_listings_pass_filters geography asset_type filters :
  apply_filters (get_supabase_market_data geography asset_type).2 filters
  = (get_supabase_market_data geography asset_type).2.
Proof.
  rewrite apply_filters_filter. apply filter_blank_identity.
  destruct (get_supabase_market_data_cases geography asset_type)
    as [E|(query & cd & rd & cc & rc & _ & _ & _ & _ & Hrc & E)]; rewrite E; cbn.
  - constructor.
  - apply (for_each_Forall (realtor_comp geography) _ rd rc); [|exact Hrc].
    intros x y Hy. now apply (realtor_comp_rents_only geography x y).
Qed.

End GatewayProperties.

Lemma realtor_failure_drops_crexi_witness :
  @get_supabase_market_data (failing_for "Realtor.com" [cap_rate_record])
    "Tampa, FL" "Multifamily" = ([], []).
Proof.
  apply (@realtor_failure_drops_crexi (failing_for "Realtor.com" [cap_rate_record])
           "Tampa, FL" "Multifamily" _ (Raised ValueError) eq_refl).
  reflexivity.
Defined.

(** The gateway on a store with one cap-rate record and one rent record:
    each provider's list gets a comparable for either record. *)
Example get_supabase_market_data_sample :
  @get_supabase_market_data (constant_store [cap_rate_record; one_bed_rent_record])
    "Tampa, FL" "Multifamily"
  = ([ CompProperty.mk "crexi" "Market data for Tampa, FL" None None (Some 5.5)
         None None None None None None;
       CompProperty.mk "crexi" "Market data for Tampa, FL" None None None
         None None None None None None ],
     [ CompProperty.mk "realtor" "Market data for Tampa, FL" None None None
         None None None None None (Some (UnitRentData.mk None None None None));
       CompProperty.mk "realtor" "Market data for Tampa, FL" None None None
         None None None None None
         (Some (UnitRentData.mk (Some 1500) None None None)) ]).
Proof. vm_compute. reflexivity. Qed.

(* ====================================================================== *)
(** * Further properties of the aggregation and of the comparisons         *)
(* ====================================================================== *)

(** [X9].  The average of a field depends only on the values reported for
    it: comparables that lack the field, however many and wherever they
    stand in the list, leave the average unchanged.  Whether the aggregation
    returns at all depends only on the unit counts reported. *)
Theorem average_depends_on_reported_values `{Builtins} a comps comps' :
  reported a comps = reported a comps' ->
  (forall s s',
     calculate_comp_stats comps = Ok s ->
     calculate_comp_stats comps' = Ok s' ->
     average_of a s = average_of a s')
  /\ (reported AvgUnits comps = reported AvgUnits comps' ->
      ((exists s, calculate_comp_stats comps = Ok s)
       <-> exists s', calculate_comp_stats comps' = Ok s')
      /\ (average_of a <$> to_option (calculate_comp_stats comps)
          = average_of a <$> to_option (calculate_comp_stats comps'))).
Proof.
  intros E. split.
  - intros s s' Hs Hs'.
    now rewrite (average_of_stats comps s a Hs), (average_of_stats comps' s' a Hs'), E.
  - intros Eu.
    assert (Hunits : omap CompProperty.units comps = omap CompProperty.units comps').
    { unfold reported, reported_value in Eu. rewrite !omap_tagged in Eu.
      revert Eu. generalize (omap CompProperty.units comps) as l.
      generalize (omap CompProperty.units comps') as l'.
      intros l' l. revert l'. induction l as [|n l IH]; intros [|n' l'] Eu;
        try discriminate Eu; [reflexivity|].
      injection Eu as -> Eu. f_equal. now apply IH. }
    assert (Hboth : forall c c',
               omap CompProperty.units c = omap CompProperty.units c' ->
               (exists s, calculate_comp_stats c = Ok s) ->
               exists s', calculate_comp_stats c' = Ok s').
    { intros c c' Hc (s & Hs). apply calculate_comp_stats_Ok in Hs.
      rewrite Hc in Hs. now apply calculate_comp_stats_returns in Hs. }
    split; [split; now apply Hboth|].
    destruct (calculate_comp_stats comps) as [s|e] eqn:Hs,
             (calculate_comp_stats comps') as [s'|e'] eqn:Hs'; cbn.
    + f_equal.
      now rewrite (average_of_stats comps s a Hs), (average_of_stats comps' s' a Hs'), E.
    + destruct (Hboth comps comps' Hunits (ex_intro _ s Hs)) as (s' & Hs'').
      rewrite Hs' in Hs''. discriminate Hs''.
    + destruct (Hboth comps' comps (eq_sym Hunits) (ex_intro _ s' Hs')) as (s & Hs'').
      rewrite Hs in Hs''. discriminate Hs''.
    + reflexivity.
Qed.

Lemma average_depends_on_reported_values_witness :
  average_of AvgCapRate <$> to_option (@calculate_comp_stats Reference.builtins
                                         get_mock_crexi_comps)
  = average_of AvgCapRate
      <$> to_option (@calculate_comp_stats Reference.builtins
                       (get_mock_realtor_comps ++ get_mock_crexi_comps)).
Proof.
  apply (proj2 (@average_depends_on_reported_values Reference.builtins AvgCapRate
                  get_mock_crexi_comps (get_mock_realtor_comps ++ get_mock_crexi_comps)
                  eq_refl) eq_refl).
Defined.

(** [X10].  The CREXi comparisons and the Realtor comparisons are independent:
    the output is the comparisons against the CREXi statistics alone followed
    by the comparisons against the Realtor statistics alone, the other
    provider's statistics being those of the empty list. *)
Theorem calculate_comparisons_by_provider `{Builtins} om crexi realtor :
  calculate_comp_stats [] = Ok no_stats
  /\ calculate_comparisons om crexi realtor
     = calculate_comparisons om crexi no_stats
       ++ calculate_comparisons om no_stats realtor.
Proof.
  split; [reflexivity|].
  unfold calculate_comparisons, price_per_unit_block, price_per_sqft_block,
    cap_rate_block.
  cbn [no_stats CompStats.avg_unit_rents CompStats.avg_price_per_unit
       CompStats.avg_price_per_sqft CompStats.avg_cap_rate].
  change (0 <? 0) with false. cbv iota. cbn [app].
  destruct (CompStats.avg_unit_rents realtor) as [u|].
  - now rewrite <- !app_assoc.
  - now rewrite app_nil_r.
Qed.

(* ====================================================================== *)
(** * Further properties of the input normalizer                           *)
(* ====================================================================== *)

Section NormalizerProperties.
Context `{Builtins}.

Lemma parse_row_summary r om :
  parse_row r = Ok om ->
  om.(OMData.property_summary).(PropertySummary.address)
  = default (Some ""%string) (r !! "address"%string)
  /\ opportunity_zone_field r
     = Ok om.(OMData.property_summary).(PropertySummary.opportunity_zone).
Proof.
  unfold parse_row. intros Hp.
  repeat match type of Hp with
         | _ ≫= _ = Ok _ =>
             let x := fresh "x" in
             let Hx := fresh "Hx" in
             apply bind_Ok in Hp as (x & Hx & Hp)
         end.
  injection Hp as <-. cbn. now split.
Qed.

(** [X11].  The parser reads the columns of the template and nothing else:
    two rows that agree on these eighteen columns parse to the same
    outcome, whatever other columns they carry. *)
Theorem parse_row_reads_template_columns r r' :
  (forall k, In k csv_template_columns -> r !! k = r' !! k) ->
  parse_row r = parse_row r'.
Proof.
  intros Hagree.
  assert (Hf : forall k, In k csv_template_columns ->
                         float_field r k = float_field r' k).
  { intros k Hk. unfold float_field. now rewrite (Hagree k Hk). }
  assert (Hi : forall k, In k csv_template_columns ->
                         int_field r k = int_field r' k).
  { intros k Hk. unfold int_field. now rewrite (Hf k Hk). }
  assert (Hr : forall k, In k csv_template_columns ->
                         rent_field r k = rent_field r' k).
  { intros k Hk. unfold rent_field. now rewrite (Hagree k Hk), (Hf k Hk). }
  assert (Ho : opportunity_zone_field r = opportunity_zone_field r').
  { unfold opportunity_zone_field. rewrite (Hagree "opportunity_zone"%string); [reflexivity|].
    cbn. tauto. }
  unfold parse_row.
  rewrite Ho, (Hagree "address"%string) by (cbn; tauto).
  rewrite (Hf "cap_rate"%string), (Hi "rentable_sqft"%string),
    (Hf "avg_sqft_per_unit"%string), (Hf "asking_price"%string),
    (Hf "lot_size_acres"%string), (Hi "total_units"%string),
    (Hr "one_bed_rent"%string), (Hr "two_bed_rent"%string),
    (Hr "three_bed_rent"%string), (Hr "four_bed_rent"%string),
    (Hf "noi"%string), (Hf "price_per_sqft"%string), (Hf "price_per_unit"%string),
    (Hf "price_per_acre"%string), (Hf "vacancy_rate"%string),
    (Hf "gross_potential_rent"%string) by (cbn; tauto).
  reflexivity.
Qed.

Lemma parse_row_needs_readable_numbers r col :
  plain_numeric col = true ->
  (forall x, float_field r (column_name col) <> Ok x) ->
  exists e, parse_row r = Raise e.
Proof.
  intros Hplain Hbad. destruct (parse_row r) as [om|e] eqn:Ep; [|now exists e].
  exfalso. apply parse_row_fields in Ep. cbn zeta in Ep.
  destruct col as [| | | | | |b| | | | | |]; try discriminate Hplain;
    cbn [column_name] in Hbad;
    repeat match goal with
           | Hc : _ /\ _ |- _ => destruct Hc
           end;
    try match goal with
        | Hf : float_field r ?k = Ok ?x |- _ =>
            now apply (Hbad x)
        end.
  - match goal with
    | Hf : int_field r "rentable_sqft" = Ok _ |- _ =>
        unfold int_field in Hf; apply bind_Ok in Hf as (x & Hx & _);
        now apply (Hbad x)
    end.
  - match goal with
    | Hf : int_field r "total_units" = Ok _ |- _ =>
        unfold int_field in Hf; apply bind_Ok in Hf as (x & Hx & _);
        now apply (Hbad x)
    end.
Qed.

(** [X12].  A numeric column other than a bedroom rent whose cell is null
    (the data line stops before it) or is a string that [float] rejects
    makes the whole parse fail with the client error 400; only a column that
    is absent altogether falls back to 0. *)
Theorem unreadable_numeric_cell_fails_parse text r col cell :
  csv_first_row text = Ok r ->
  plain_numeric col = true ->
  r !! column_name col = Some cell ->
  (cell = None \/ exists s, cell = Some s /\ float_of_str s = None) ->
  exists cause,
    parse_csv_om_data text
    = Raise (HTTPException 400 ("Error parsing CSV: " +:+ str_of_exn cause)).
Proof.
  intros Hr Hplain Hcell Hbad.
  destruct (parse_row_needs_readable_numbers r col Hplain) as (e & He).
  { intros x. unfold float_field. rewrite Hcell.
    destruct Hbad as [->|(s & -> & ->)]; discriminate. }
  exists e. unfold parse_csv_om_data. rewrite Hr. cbn. now rewrite He.
Qed.

(** [X13].  In a parsed record the cap rate of the property summary and the
    cap rate of the financial metrics are the same number. *)
Theorem parsed_cap_rates_agree text om :
  parse_csv_om_data text = Ok om ->
  om.(OMData.property_summary).(PropertySummary.cap_rate)
  = om.(OMData.financials).(FinancialMetrics.cap_rate).
Proof.
  unfold parse_csv_om_data, try_except.
  destruct (csv_first_row text) as [r|e]; cbn; [|discriminate].
  destruct (parse_row r) as [om'|e] eqn:Ep; [|discriminate].
  intros E. injection E as <-. apply parse_row_fields in Ep. cbn zeta in Ep.
  destruct Ep as (H1 & _ & _ & _ & _ & _ & _ & _ & _ & _ & _ & H2 & _).
  rewrite H1 in H2. now injection H2.
Qed.

(** [X14].  A bedroom rent of a parsed record is absent exactly when its
    cell is missing, null or the empty string; any other cell, a written
    [0] included, gives a present rent. *)
Theorem parsed_rent_absent_iff_cell_falsy r om b :
  parse_row r = Ok om ->
  (rent b om.(OMData.unit_rents) = None
   <-> cell_truthy (r !! column_name (ColRent b)) = false).
Proof.
  intros Hp. apply parse_row_fields in Hp. cbn zeta in Hp.
  destruct Hp as (_ & _ & _ & _ & _ & _ & R1 & R2 & R3 & R4 & _).
  assert (Hrent : forall k v, rent_field r k = Ok v ->
                              (v = None <-> cell_truthy (r !! k) = false)).
  { intros k v. unfold rent_field. destruct (cell_truthy (r !! k)).
    - intros E. apply bind_Ok in E as (x & _ & E). injection E as <-.
      split; discriminate.
    - intros E. injection E as <-. now split. }
  destruct b; cbn [rent column_name]; now apply Hrent.
Qed.

(** [X15].  The opportunity-zone flag of a parsed record is set exactly when
    the cell reads [yes] in any letter case; a missing column leaves it
    unset. *)
Theorem parsed_opportunity_zone r om :
  parse_row r = Ok om ->
  (om.(OMData.property_summary).(PropertySummary.opportunity_zone) = true
   <-> exists s, r !! "opportunity_zone"%string = Some (Some s)
                 /\ Py.lower s = "yes"%string).
Proof.
  intros Hp. apply parse_row_summary in Hp as [_ Ho].
  unfold opportunity_zone_field in Ho.
  destruct (r !! "opportunity_zone"%string) as [[s|]|]; try discriminate Ho;
    injection Ho as <-.
  - split.
    + intros E. apply String.eqb_eq in E. now exists s.
    + intros (s' & E & El). injection E as <-. now apply String.eqb_eq.
  - split; [discriminate|]. intros (s & E & _). discriminate E.
Qed.

End NormalizerProperties.

Lemma parse_row_reads_template_columns_witness :
  @parse_row Reference.builtins example_row_with_notes
  = @parse_row Reference.builtins example_row.
Proof.
  apply (@parse_row_reads_template_columns Reference.builtins
           example_row_with_notes example_row).
  intros k Hk. cbn in Hk.
  repeat (destruct Hk as [<-|Hk]; [vm_compute; reflexivity|]).
  destruct Hk.
Defined.

Lemma unreadable_numeric_cell_fails_parse_witness :
  exists cause,
    @parse_csv_om_data Reference.builtins short_line_upload
    = Raise (HTTPException 400 ("Error parsing CSV: " +:+ Reference.str cause)).
Proof.
  apply (@unreadable_numeric_cell_fails_parse Reference.builtins short_line_upload
           {[ "cap_rate"%string := Some "5.4"%string; "noi"%string := None ]}
           ColNoi None).
  - vm_compute. reflexivity.
  - reflexivity.
  - vm_compute. reflexivity.
  - now left.
Defined.

Lemma parsed_cap_rates_agree_witness :
  cap_rate_only_record.(OMData.property_summary).(PropertySummary.cap_rate)
  = cap_rate_only_record.(OMData.financials).(FinancialMetrics.cap_rate).
Proof.
  apply (@parsed_cap_rates_agree Reference.builtins cap_rate_only_upload
           cap_rate_only_record).
  vm_compute. reflexivity.
Defined.

Lemma parsed_rent_absent_iff_cell_falsy_witness :
  rent ThreeBed get_mock_om_data.(OMData.unit_rents) = None
  <-> cell_truthy (example_row !! column_name (ColRent ThreeBed)) = false.
Proof.
  apply (@parsed_rent_absent_iff_cell_falsy Reference.builtins example_row
           get_mock_om_data ThreeBed).
  vm_compute. reflexivity.
Defined.

Lemma parsed_opportunity_zone_witness :
  get_mock_om_data.(OMData.property_summary).(PropertySummary.opportunity_zone) = true
  <-> exists s, example_row !! "opportunity_zone"%string = Some (Some s)
                /\ Py.lower s = "yes"%string.
Proof.
  apply (@parsed_opportunity_zone Reference.builtins example_row get_mock_om_data).
  vm_compute. reflexivity.
Defined.

(* ====================================================================== *)
(** * Properties of the analyze endpoint                                   *)
(* ====================================================================== *)

Section EndpointProperties.
Context `{Builtins}.

(** No comparable read from the store reports a number of units. *)
Lemma store_units_absent geography asset_type :
  Forall (fun c => c.(CompProperty.units) = None)
    ((get_supabase_market_data geography asset_type).1
     ++ (get_supabase_market_data geography asset_type).2).
Proof.
  destruct (get_supabase_market_data_cases geography asset_type)
    as [E|(query & cd & rd & cc & rc & _ & _ & _ & Hcc & Hrc & E)]; rewrite E; cbn.
  - constructor.
  - apply List.Forall_app. split.
    + apply (for_each_Forall (crexi_comp geography) _ cd cc); [|exact Hcc].
      intros x y Hy. now apply crexi_comp_single_metric in Hy.
    + apply (for_each_Forall (realtor_comp geography) _ rd rc); [|exact Hrc].
      intros x y Hy. apply realtor_comp_rents_only in Hy as [Hno _].
      specialize (Hno UnitsMin). cbn in Hno.
      now destruct (CompProperty.units y).
Qed.

Lemma units_absent_filtered (p : CompProperty.t -> bool) comps :
  Forall (fun c => c.(CompProperty.units) = None) comps ->
  omap CompProperty.units (List.filter p comps) = [].
Proof.
  intros Hall. induction Hall as [|c rest Hc _ IH]; [reflexivity|].
  cbn [List.filter]. destruct (p c); [|exact IH].
  cbn [omap list_omap]. now rewrite Hc.
Qed.

(** The statistics of comparables without unit counts are always computed. *)
Lemma units_absent_stats (p : CompProperty.t -> bool) comps :
  Forall (fun c => c.(CompProperty.units) = None) comps ->
  exists s, calculate_comp_stats (List.filter p comps) = Ok s.
Proof.
  intros Hall. apply (calculate_comp_stats_returns _ 0).
  now rewrite (units_absent_filtered p comps Hall).
Qed.

(** So are the statistics of any selection of the built-in comparables. *)
Lemma builtin_stats (p : CompProperty.t -> bool) :
  (exists s, calculate_comp_stats (List.filter p get_mock_crexi_comps) = Ok s)
  /\ (exists s, calculate_comp_stats (List.filter p get_mock_realtor_comps) = Ok s).
Proof.
  split.
  - unfold get_mock_crexi_comps. cbn [List.filter].
    repeat match goal with
           | |- context [p ?c] => destruct (p c)
           end;
      (eapply calculate_comp_stats_returns; vm_compute; reflexivity).
  - apply units_absent_stats. repeat constructor.
Qed.

(** The statistics that [analyze_om] asks for are always computed: the
    comparables of the store carry no unit counts, and the built-in ones
    carry small ones. *)
Lemma analysis_stats geography filters :
  let market_data := get_supabase_market_data geography "Multifamily" in
  (exists s, calculate_comp_stats
               (apply_filters (or_builtin market_data.1 get_mock_crexi_comps) filters)
             = Ok s)
  /\ (exists s, calculate_comp_stats
                  (apply_filters (or_builtin market_data.2 get_mock_realtor_comps) filters)
                = Ok s).
Proof.
  cbv zeta. rewrite !apply_filters_filter.
  pose proof (store_units_absent geography "Multifamily") as Hstore.
  apply List.Forall_app in Hstore as [Hc Hr].
  destruct (builtin_stats (reaches_append filters)) as [Bc Br].
  split.
  - destruct (get_supabase_market_data geography "Multifamily").1 as [|c cs] eqn:E;
      [exact Bc|].
    cbn [or_builtin]. now apply units_absent_stats.
  - destruct (get_supabase_market_data geography "Multifamily").2 as [|c cs] eqn:E;
      [exact Br|].
    cbn [or_builtin]. now apply units_absent_stats.
Qed.

(** What [analyze_om] returns, step by step. *)
Lemma analyze_om_unfold filters om_csv :
  analyze_om filters om_csv
  = match subject_record om_csv with
    | Raise e => Raise (HTTPException 500 ("Analysis failed: " +:+ str_of_exn e))
    | Ok om =>
        match om.(OMData.property_summary).(PropertySummary.address) with
        | None =>
            Raise (HTTPException 500
                     ("Analysis failed: " +:+ str_of_exn (Raised AttributeError)))
        | Some address =>
            let market_data :=
              get_supabase_market_data (extract_geography_from_address address)
                "Multifamily" in
            let crexi := apply_filters (or_builtin market_data.1 get_mock_crexi_comps) filters in
            let realtor :=
              apply_filters (or_builtin market_data.2 get_mock_realtor_comps) filters in
            match calculate_comp_stats crexi with
            | Raise e => Raise (HTTPException 500 ("Analysis failed: " +:+ str_of_exn e))
            | Ok crexi_stats =>
                match calculate_comp_stats realtor with
                | Raise e =>
                    Raise (HTTPException 500 ("Analysis failed: " +:+ str_of_exn e))
                | Ok realtor_stats =>
                    Ok (AnalysisResponse.mk
                          om.(OMData.property_summary) om.(OMData.unit_rents)
                          om.(OMData.financials) om.(OMData.vacancy_egi)
                          crexi_stats realtor_stats
                          (calculate_comparisons (om_metrics_of om)
                             crexi_stats realtor_stats)
                          crexi realtor)
                end
            end
        end
    end.
Proof.
  unfold analyze_om, subject_record, try_except, or_builtin.
  destruct om_csv as [content|]; cbn.
  - destruct (decode_utf8 content) as [text|]; cbn; [|reflexivity].
    destruct (parse_csv_om_data text) as [om|e]; cbn; [|reflexivity].
    destruct (PropertySummary.address (OMData.property_summary om)); cbn; [|reflexivity].
    repeat match goal with
           | |- context [calculate_comp_stats ?l] =>
               destruct (calculate_comp_stats l); cbn
           end; reflexivity.
  - repeat match goal with
           | |- context [calculate_comp_stats ?l] =>
               destruct (calculate_comp_stats l); cbn
           end; reflexivity.
Qed.

(** With a subject record that has an address, the analysis succeeds, and
    its response is made of the filtered comparables, their statistics and
    the comparisons against them. *)
Lemma analyze_om_succeeds filters om_csv om address :
  subject_record om_csv = Ok om ->
  om.(OMData.property_summary).(PropertySummary.address) = Some address ->
  let market_data :=
    get_supabase_market_data (extract_geography_from_address address) "Multifamily" in
  let crexi := apply_filters (or_builtin market_data.1 get_mock_crexi_comps) filters in
  let realtor := apply_filters (or_builtin market_data.2 get_mock_realtor_comps) filters in
  exists crexi_stats realtor_stats,
    calculate_comp_stats crexi = Ok crexi_stats
    /\ calculate_comp_stats realtor = Ok realtor_stats
    /\ analyze_om filters om_csv
       = Ok (AnalysisResponse.mk
               om.(OMData.property_summary) om.(OMData.unit_rents)
               om.(OMData.financials) om.(OMData.vacancy_egi)
               crexi_stats realtor_stats
               (calculate_comparisons (om_metrics_of om) crexi_stats realtor_stats)
               crexi realtor).
Proof.
  intros Hom Ha. cbv zeta. rewrite analyze_om_unfold, Hom, Ha. cbv zeta.
  destruct (analysis_stats (extract_geography_from_address address) filters)
    as [(cs & Hc) (rs & Hr)].
  exists cs, rs. now rewrite Hc, Hr.
Qed.

(** A response comes from a subject record with an address. *)
Lemma analyze_om_Ok filters om_csv resp :
  analyze_om filters om_csv = Ok resp ->
  exists om address,
    subject_record om_csv = Ok om
    /\ om.(OMData.property_summary).(PropertySummary.address) = Some address.
Proof.
  rewrite analyze_om_unfold.
  destruct (subject_record om_csv) as [om|e]; [|discriminate].
  destruct (PropertySummary.address (OMData.property_summary om)) as [a|] eqn:Ea;
    [|discriminate].
  intros _. now exists om, a.
Qed.

(** The counts of the statistics are the length of the list. *)
Lemma calculate_comp_stats_counts comps s :
  calculate_comp_stats comps = Ok s ->
  s.(CompStats.total_scraped) = Z.of_nat (length comps)
  /\ s.(CompStats.filtered_count) = Z.of_nat (length comps).
Proof.
  destruct comps as [|c rest]; [intros E; injection E as <-; now split|].
  unfold calculate_comp_stats. cbv zeta.
  destruct (meanZ_or_zero _); [|discriminate].
  intros E. injection E as <-. now split.
Qed.

(** [X16].  Without an upload the analysis always succeeds, whatever the
    filters and whatever the store does, and the response carries the
    built-in subject record. *)
Theorem analyze_om_without_upload_succeeds filters :
  exists resp,
    analyze_om filters None = Ok resp
    /\ resp.(AnalysisResponse.property_summary) = get_mock_om_data.(OMData.property_summary)
    /\ resp.(AnalysisResponse.unit_rents) = get_mock_om_data.(OMData.unit_rents)
    /\ resp.(AnalysisResponse.financials) = get_mock_om_data.(OMData.financials)
    /\ resp.(AnalysisResponse.vacancy_egi) = get_mock_om_data.(OMData.vacancy_egi).
Proof.
  destruct (analyze_om_succeeds filters None get_mock_om_data
              "123 Main St, Tampa, FL" eq_refl eq_refl) as (cs & rs & _ & _ & E).
  eexists. split; [exact E|]. repeat split.
Qed.

(** [X17].  The analysis succeeds exactly when the subject record is
    obtained and has an address; neither the filters nor the store can make
    it fail.  Every failure is the server error 500 with a detail that
    starts with [Analysis failed: ], and it needs an upload. *)
Theorem analyze_om_outcome filters om_csv :
  ((exists resp, analyze_om filters om_csv = Ok resp)
   <-> exists om address,
         subject_record om_csv = Ok om
         /\ om.(OMData.property_summary).(PropertySummary.address) = Some address)
  /\ (forall e, analyze_om filters om_csv = Raise e ->
        (exists content, om_csv = Some content)
        /\ exists cause,
             e = HTTPException 500 ("Analysis failed: " +:+ str_of_exn cause)).
Proof.
  split; [split|].
  - intros (resp & E). now apply (analyze_om_Ok filters om_csv resp).
  - intros (om & a & Hom & Ha).
    destruct (analyze_om_succeeds filters om_csv om a Hom Ha) as (cs & rs & _ & _ & E).
    eexists. exact E.
  - intros e He.
    destruct (subject_record om_csv) as [om|cause] eqn:Hom.
    + destruct (PropertySummary.address (OMData.property_summary om)) as [a|] eqn:Ha.
      * destruct (analyze_om_succeeds filters om_csv om a Hom Ha)
          as (cs & rs & _ & _ & E).
        rewrite E in He. discriminate He.
      * rewrite analyze_om_unfold, Hom, Ha in He. injection He as <-.
        split; [|now exists (Raised AttributeError)].
        destruct om_csv as [content|]; [now exists content|].
        cbn in Hom. injection Hom as <-. discriminate Ha.
    + rewrite analyze_om_unfold, Hom in He. injection He as <-.
      split; [|now exists cause].
      destruct om_csv as [content|]; [now exists content|discriminate Hom].
Qed.

(** [X18].  A response is consistent with itself: each provider's statistics
    are the statistics of the comparables listed for it, so that
    [total_scraped] and [filtered_count] both equal the number of listed
    (already filtered) comparables; every listed comparable passes the
    filters; and the comparisons are those of the listed subject metrics
    against the listed statistics. *)
Theorem analyze_om_response_consistent filters om_csv resp :
  analyze_om filters om_csv = Ok resp ->
  let crexi := resp.(AnalysisResponse.raw_crexi_comps) in
  let realtor := resp.(AnalysisResponse.raw_realtor_comps) in
  calculate_comp_stats crexi = Ok resp.(AnalysisResponse.crexi_comps)
  /\ calculate_comp_stats realtor = Ok resp.(AnalysisResponse.realtor_comps)
  /\ resp.(AnalysisResponse.crexi_comps).(CompStats.total_scraped) = Z.of_nat (length crexi)
  /\ resp.(AnalysisResponse.crexi_comps).(CompStats.filtered_count) = Z.of_nat (length crexi)
  /\ resp.(AnalysisResponse.realtor_comps).(CompStats.total_scraped) = Z.of_nat (length realtor)
  /\ resp.(AnalysisResponse.realtor_comps).(CompStats.filtered_count) = Z.of_nat (length realtor)
  /\ Forall (fun c => survives filters c = true) (crexi ++ realtor)
  /\ resp.(AnalysisResponse.comparisons)
     = calculate_comparisons
         (OMMetrics.mk
            resp.(AnalysisResponse.financials).(FinancialMetrics.price_per_unit)
            resp.(AnalysisResponse.financials).(FinancialMetrics.price_per_sqft)
            resp.(AnalysisResponse.financials).(FinancialMetrics.cap_rate)
            resp.(AnalysisResponse.unit_rents))
         resp.(AnalysisResponse.crexi_comps) resp.(AnalysisResponse.realtor_comps).
Proof.
  intros E. destruct (analyze_om_Ok filters om_csv resp E) as (om & a & Hom & Ha).
  destruct (analyze_om_succeeds filters om_csv om a Hom Ha) as (cs & rs & Hc & Hr & E').
  rewrite E' in E. injection E as <-. cbn.
  destruct (calculate_comp_stats_counts _ cs Hc) as [Hc1 Hc2].
  destruct (calculate_comp_stats_counts _ rs Hr) as [Hr1 Hr2].
  repeat split; try assumption.
  apply List.Forall_app. split; rewrite apply_filters_filter;
    apply List.Forall_forall; intros c Hin; apply List.filter_In in Hin as [_ Hin];
    rewrite reaches_append_survives in Hin; exact Hin.
Qed.

(** [X19].  When the filters leave no comparable of either provider, the
    analysis still succeeds and reports no comparison. *)
Theorem analyze_om_no_comparables_no_comparisons filters om_csv resp :
  analyze_om filters om_csv = Ok resp ->
  resp.(AnalysisResponse.raw_crexi_comps) = [] ->
  resp.(AnalysisResponse.raw_realtor_comps) = [] ->
  resp.(AnalysisResponse.comparisons) = []
  /\ calculate_comp_stats [] = Ok resp.(AnalysisResponse.crexi_comps)
  /\ calculate_comp_stats [] = Ok resp.(AnalysisResponse.realtor_comps).
Proof.
  intros E. destruct (analyze_om_Ok filters om_csv resp E) as (om & a & Hom & Ha).
  destruct (analyze_om_succeeds filters om_csv om a Hom Ha) as (cs & rs & Hc & Hr & E').
  rewrite E' in E. injection E as <-. cbn. intros Ec Er.
  rewrite Ec in Hc. rewrite Er in Hr.
  injection Hc as <-. injection Hr as <-. repeat split.
Qed.

(** [X20].  Without a store client the analysis runs on the built-in
    comparables: the listed comparables are the built-in ones that pass the
    filters. *)
Theorem analyze_om_without_client_uses_builtin filters om_csv resp :
  supabase = None ->
  analyze_om filters om_csv = Ok resp ->
  resp.(AnalysisResponse.raw_crexi_comps) = apply_filters get_mock_crexi_comps filters
  /\ resp.(AnalysisResponse.raw_realtor_comps)
     = apply_filters get_mock_realtor_comps filters.
Proof.
  intros Hs E. destruct (analyze_om_Ok filters om_csv resp E) as (om & a & Hom & Ha).
  destruct (analyze_om_succeeds filters om_csv om a Hom Ha) as (cs & rs & _ & _ & E').
  rewrite E' in E. injection E as <-. cbn.
  unfold get_supabase_market_data. rewrite Hs. now split.
Qed.

End EndpointProperties.

Lemma analyze_om_outcome_witness :
  @analyze_om Reference.builtins CompFilterRequest.unset (Some no_address_upload)
  = Raise (HTTPException 500 "Analysis failed: 'NoneType' object has no attribute")
  /\ ((exists content, Some no_address_upload = Some content)
      /\ exists cause,
           HTTPException 500 "Analysis failed: 'NoneType' object has no attribute"
           = HTTPException 500 ("Analysis failed: " +:+ Reference.str cause)).
Proof.
  split; [vm_compute; reflexivity|].
  apply (proj2 (@analyze_om_outcome Reference.builtins CompFilterRequest.unset
                  (Some no_address_upload))).
  vm_compute. reflexivity.
Defined.

Lemma analyze_om_response_consistent_witness :
  exists resp,
    @analyze_om Reference.builtins at_least_100 None = Ok resp
    /\ resp.(AnalysisResponse.crexi_comps).(CompStats.total_scraped) = 3%Z
    /\ @calculate_comp_stats Reference.builtins resp.(AnalysisResponse.raw_crexi_comps)
       = Ok resp.(AnalysisResponse.crexi_comps).
Proof.
  destruct (@analyze_om Reference.builtins at_least_100 None) as [resp|e] eqn:E;
    [|vm_compute in E; discriminate E].
  exists resp. split; [reflexivity|].
  pose proof (@analyze_om_response_consistent Reference.builtins at_least_100 None
                resp E) as (Hs & _ & Ht & _).
  split; [|exact Hs].
  rewrite Ht. vm_compute in E. injection E as <-. reflexivity.
Defined.

Lemma analyze_om_no_comparables_no_comparisons_witness :
  exists resp,
    @analyze_om Reference.builtins within_a_tenth_mile None = Ok resp
    /\ resp.(AnalysisResponse.comparisons) = [].
Proof.
  destruct (@analyze_om Reference.builtins within_a_tenth_mile None) as [resp|e] eqn:E;
    [|vm_compute in E; discriminate E].
  exists resp. split; [reflexivity|].
  apply (@analyze_om_no_comparables_no_comparisons Reference.builtins
           within_a_tenth_mile None resp E);
    vm_compute in E; injection E as <-; reflexivity.
Defined.

Lemma analyze_om_without_client_uses_builtin_witness :
  exists resp,
    @analyze_om Reference.builtins within_a_tenth_mile None = Ok resp
    /\ resp.(AnalysisResponse.raw_crexi_comps)
       = apply_filters get_mock_crexi_comps within_a_tenth_mile.
Proof.
  destruct (@analyze_om Reference.builtins within_a_tenth_mile None) as [resp|e] eqn:E;
    [|vm_compute in E; discriminate E].
  exists resp. split; [reflexivity|].
  apply (@analyze_om_without_client_uses_builtin Reference.builtins
           within_a_tenth_mile None resp eq_refl E).
Defined.

(* ====================================================================== *)
(** * Properties of the geography extraction                               *)
(* ====================================================================== *)

Lemma split_comma_parts s :
  Forall (fun p => no_char "," p = true) (Py.split_comma s).
Proof.
  unfold Py.split_comma. induction s as [|c r IH]; cbn [Py.split].
  - repeat constructor.
  - destruct (Ascii.eqb c ",") eqn:Ec.
    + constructor; [reflexivity|exact IH].
    + destruct (Py.split "," r) as [|p ps].
      * constructor; [cbn [no_char]; now rewrite Ec|constructor].
      * inversion IH as [|p' ps' Hp Hps]; subst.
        constructor; [cbn [no_char]; now rewrite Ec, Hp|exact Hps].
Qed.

Lemma split_comma_whole s :
  no_char "," s = true -> Py.split_comma s = [s].
Proof.
  unfold Py.split_comma. induction s as [|c r IH]; cbn [Py.split no_char];
    [reflexivity|].
  intros Hs. apply andb_prop in Hs as [Hc Hr].
  apply negb_true_iff in Hc. rewrite Hc, (IH Hr). reflexivity.
Qed.

Lemma append_String c p r : String c p +:+ r = String c (p +:+ r).
Proof. reflexivity. Qed.

Lemma split_comma_first p r :
  no_char "," p = true ->
  Py.split_comma (p +:+ String "," r) = p :: Py.split_comma r.
Proof.
  unfold Py.split_comma. induction p as [|c p IH].
  - intros _. reflexivity.
  - rewrite append_String. cbn [Py.split no_char].
    intros Hs. apply andb_prop in Hs as [Hc Hp].
    apply negb_true_iff in Hc. rewrite Hc, (IH Hp). reflexivity.
Qed.

Lemma lstrip_step s :
  Py.lstrip s = match after_space s with Some r => Py.lstrip r | None => s end.
Proof.
  destruct s as [|c r]; [reflexivity|]. cbn [Py.lstrip after_space].
  destruct (Py.is_space c); [reflexivity|].
  destruct r as [|d r']; [reflexivity|].
  destruct (Py.two_byte_space c d); [reflexivity|].
  destruct r' as [|e r'']; [reflexivity|].
  now destruct (Py.three_byte_space c d e).
Qed.

Ltac after_space_cases s E :=
  unfold after_space in E;
  destruct s as [|?c [|?d [|?e ?r]]];
  repeat match type of E with
         | (if ?b then _ else _) = _ => destruct b eqn:?
         end;
  try discriminate E; injection E as <-.

Lemma after_space_shorter s r :
  after_space s = Some r -> (String.length r < String.length s)%nat.
Proof. intros E. after_space_cases s E; cbn [String.length]; lia. Qed.

(** The step drops one to three bytes from the front. *)
Lemma after_space_suffix s r :
  after_space s = Some r -> exists p, s = p +:+ r.
Proof.
  intros E. after_space_cases s E;
    match goal with
    | |- exists p, String ?a ?t = p +:+ ?t => now exists (String a EmptyString)
    | |- exists p, String ?a (String ?b ?t) = p +:+ ?t =>
        now exists (String a (String b EmptyString))
    | |- exists p, String ?a (String ?b (String ?c ?t)) = p +:+ ?t =>
        now exists (String a (String b (String c EmptyString)))
    end.
Qed.

Lemma no_char_suffix c p r : no_char c (p +:+ r) = true -> no_char c r = true.
Proof.
  induction p as [|d p IH]; [trivial|]. rewrite append_String. cbn [no_char].
  intros Hs. apply andb_prop in Hs as [_ Hs]. now apply IH.
Qed.

Lemma after_space_no_char c s r :
  after_space s = Some r -> no_char c s = true -> no_char c r = true.
Proof.
  intros E. apply after_space_suffix in E as (p & ->). apply no_char_suffix.
Qed.

Lemma after_space_app s r t :
  after_space s = Some r -> after_space (s +:+ t) = Some (r +:+ t).
Proof.
  intros E. after_space_cases s E; rewrite ?append_String; cbn [after_space];
    repeat match goal with
           | Hb : ?b = _ |- context [?b] => rewrite Hb
           end; try reflexivity.
  all: destruct t as [|x [|y t]]; reflexivity.
Qed.

(** Induction along the steps of [lstrip]. *)
Lemma lstrip_ind (P : string -> Prop) :
  (forall s, after_space s = None -> P s) ->
  (forall s r, after_space s = Some r -> P r -> P s) ->
  forall s, P s.
Proof.
  intros Hstop Hstep s.
  assert (Hn : forall n s, (String.length s < n)%nat -> P s).
  { intros n. induction n as [|n IH]; intros t Hlt; [lia|].
    destruct (after_space t) as [r|] eqn:E; [|now apply Hstop].
    apply (Hstep t r E). apply IH.
    pose proof (after_space_shorter t r E). lia. }
  apply (Hn (S (String.length s))). lia.
Qed.

(** What [lstrip] leaves does not start with whitespace. *)
Lemma lstrip_fixed s : after_space (Py.lstrip s) = None.
Proof.
  induction s as [s E|s r E IH] using lstrip_ind; rewrite lstrip_step, E;
    [exact E|exact IH].
Qed.

Lemma lstrip_no_char c s : no_char c s = true -> no_char c (Py.lstrip s) = true.
Proof.
  induction s as [s E|s r E IH] using lstrip_ind; rewrite lstrip_step, E;
    [trivial|].
  intros Hs. apply IH. now apply (after_space_no_char c s r).
Qed.

(** Whitespace in front of a text is stripped with it. *)
Lemma lstrip_app_blank a b :
  Py.lstrip a = EmptyString -> Py.lstrip (a +:+ b) = Py.lstrip b.
Proof.
  induction a as [a E|a r E IH] using lstrip_ind; rewrite (lstrip_step a), E.
  - now intros ->.
  - intros Hr. now rewrite lstrip_step, (after_space_app a r b E), IH.
Qed.

Lemma rstrip_String c r :
  Py.rstrip (String c r)
  = if Py.is_blank (String c r) then EmptyString else String c (Py.rstrip r).
Proof. reflexivity. Qed.

Lemma is_blank_lstrip s : Py.is_blank s = true <-> Py.lstrip s = EmptyString.
Proof. unfold Py.is_blank. apply String.eqb_eq. Qed.

Lemma rstrip_no_char c s : no_char c s = true -> no_char c (Py.rstrip s) = true.
Proof.
  induction s as [|d r IH]; [reflexivity|]. rewrite rstrip_String.
  destruct (Py.is_blank (String d r)); [reflexivity|].
  cbn [no_char]. intros Hs. apply andb_prop in Hs as [Hd Hr].
  now rewrite Hd, IH.
Qed.

Lemma strip_no_char c s : no_char c s = true -> no_char c (Py.strip s) = true.
Proof. intros Hs. unfold Py.strip. now apply rstrip_no_char, lstrip_no_char. Qed.

(** [rstrip] cuts off a text of whitespace only. *)
Lemma rstrip_split s :
  exists w, s = Py.rstrip s +:+ w /\ Py.lstrip w = EmptyString.
Proof.
  induction s as [|c r (w & Hr & Hw)]; [now exists EmptyString|].
  rewrite rstrip_String. destruct (Py.is_blank (String c r)) eqn:Eb.
  - exists (String c r). split; [reflexivity|]. now apply is_blank_lstrip.
  - exists w. split; [|exact Hw]. rewrite append_String. now f_equal.
Qed.

Lemma rstrip_not_blank c r :
  Py.is_blank (String c r) = false -> Py.is_blank (String c (Py.rstrip r)) = false.
Proof.
  intros Eb. destruct (Py.is_blank (String c (Py.rstrip r))) eqn:Eb'; [|reflexivity].
  apply is_blank_lstrip in Eb'. destruct (rstrip_split r) as (w & Hr & Hw).
  assert (Hs : Py.lstrip (String c r) = EmptyString).
  { rewrite Hr at 1. rewrite <- append_String.
    now rewrite (lstrip_app_blank _ w Eb'). }
  apply is_blank_lstrip in Hs. rewrite Hs in Eb. discriminate Eb.
Qed.

Lemma rstrip_rstrip s : Py.rstrip (Py.rstrip s) = Py.rstrip s.
Proof.
  induction s as [|c r IH]; [reflexivity|]. rewrite rstrip_String.
  destruct (Py.is_blank (String c r)) eqn:Eb; [reflexivity|].
  now rewrite rstrip_String, (rstrip_not_blank c r Eb), IH.
Qed.

(** Cutting a text at its end leaves its start as it is. *)
Lemma lstrip_rstrip_lstrip s :
  Py.lstrip (Py.rstrip (Py.lstrip s)) = Py.rstrip (Py.lstrip s).
Proof.
  pose proof (lstrip_fixed s) as Hfix.
  destruct (rstrip_split (Py.lstrip s)) as (w & Hu & _).
  rewrite lstrip_step.
  destruct (after_space (Py.rstrip (Py.lstrip s))) as [r|] eqn:E; [|reflexivity].
  apply (after_space_app _ r w) in E. rewrite <- Hu, Hfix in E. discriminate E.
Qed.

Lemma strip_strip s : Py.strip (Py.strip s) = Py.strip s.
Proof.
  unfold Py.strip. now rewrite lstrip_rstrip_lstrip, rstrip_rstrip.
Qed.

(** A blank in front of a text is stripped with it. *)
Lemma strip_after_blank s : Py.strip (String " " s) = Py.strip s.
Proof. unfold Py.strip. now rewrite (lstrip_step (String " " s)). Qed.

(** The geography is always two comma-free, stripped parts joined by a comma
    and a blank. *)
Lemma extract_geography_parts address :
  exists city state,
    extract_geography_from_address address = city +:+ ", " +:+ state
    /\ no_char "," city = true /\ no_char "," state = true
    /\ Py.strip city = city /\ Py.strip state = state.
Proof.
  unfold extract_geography_from_address.
  pose proof (split_comma_parts address) as Hparts.
  apply List.Forall_rev in Hparts.
  destruct (rev (Py.split_comma address)) as [|last [|before rest]].
  - exists "Tampa"%string, "FL"%string. repeat split; reflexivity.
  - exists "Tampa"%string, "FL"%string. repeat split; reflexivity.
  - inversion Hparts as [|? ? Hl Hrest]; subst.
    inversion Hrest as [|? ? Hb _]; subst.
    exists (Py.strip before), (Py.strip last).
    split; [reflexivity|]. repeat split;
      first [now apply strip_no_char | apply strip_strip].
Qed.

(** [X21].  An address without a comma gets the default geography
    [Tampa, FL]; every geography consists of two stripped, comma-free parts
    joined by a comma and a blank; and extracting the geography of a
    geography returns it unchanged. *)
Theorem extract_geography_idempotent address :
  (no_char "," address = true ->
   extract_geography_from_address address = "Tampa, FL"%string)
  /\ (exists city state,
        extract_geography_from_address address = city +:+ ", " +:+ state
        /\ no_char "," city = true /\ no_char "," state = true
        /\ Py.strip city = city /\ Py.strip state = state)
  /\ extract_geography_from_address (extract_geography_from_address address)
     = extract_geography_from_address address.
Proof.
  split; [|split; [apply extract_geography_parts|]].
  - intros Hs. unfold extract_geography_from_address.
    now rewrite (split_comma_whole address Hs).
  - destruct (extract_geography_parts address)
      as (city & state & -> & Hc & Hs & Ec & Es).
    unfold extract_geography_from_address at 1.
    change (city +:+ ", " +:+ state) with (city +:+ String "," (String " " state)).
    rewrite (split_comma_first city _ Hc).
    rewrite (split_comma_whole (String " " state)) by exact Hs.
    cbn [rev app]. rewrite Ec.
    now rewrite strip_after_blank, Es.
Qed.

Lemma extract_geography_idempotent_witness :
  extract_geography_from_address "Suite 5 Harbor Plaza" = "Tampa, FL"%string.
Proof.
  apply (proj1 (extract_geography_idempotent "Suite 5 Harbor Plaza")).
  reflexivity.
Defined.

(* ====================================================================== *)
(** * Properties of the persistence sink                                   *)
(* ====================================================================== *)

Lemma replace_char_no_char old new s :
  Ascii.eqb new old = false -> no_char old (replace_char old new s) = true.
Proof.
  intros Hne. induction s as [|c r IH]; [reflexivity|].
  cbn [replace_char no_char]. rewrite IH, andb_true_r.
  destruct (Ascii.eqb c old) eqn:Ec; [now rewrite Hne|now rewrite Ec].
Qed.

Lemma remove_char_no_char old s : no_char old (remove_char old s) = true.
Proof.
  induction s as [|c r IH]; [reflexivity|]. cbn [remove_char].
  destruct (Ascii.eqb c old) eqn:Ec; [exact IH|].
  cbn [no_char]. now rewrite Ec, IH.
Qed.

Lemma remove_char_keeps_no_char old c s :
  no_char c s = true -> no_char c (remove_char old s) = true.
Proof.
  induction s as [|d r IH]; [reflexivity|]. cbn [remove_char no_char].
  intros Hs. apply andb_prop in Hs as [Hd Hr].
  destruct (Ascii.eqb d old); [now apply IH|].
  cbn [no_char]. now rewrite Hd, IH.
Qed.

(** The identifier of a deal holds neither a blank nor a comma. *)
Lemma deal_id_of_clean address :
  no_char " " (deal_id_of address) = true
  /\ no_char "," (deal_id_of address) = true.
Proof.
  unfold deal_id_of. cbn [String.append no_char]. split.
  - change (no_char " " (remove_char "," (replace_char " " "_" address)) = true).
    apply remove_char_keeps_no_char. now apply replace_char_no_char.
  - change (no_char "," (remove_char "," (replace_char " " "_" address)) = true).
    apply remove_char_no_char.
Qed.

Lemma rent_row_shape deal_id geography unit_type r :
  Forall (fun m => m.(InvestorMetric.deal_id) = deal_id
                   /\ m.(InvestorMetric.geography) = geography
                   /\ m.(InvestorMetric.asset_type) = "Multifamily"%string
                   /\ m.(InvestorMetric.unit_type) = Some unit_type)
    (rent_row deal_id geography unit_type r)
  /\ length (rent_row deal_id geography unit_type r)
     = (if match r with Some x => Py.truthy x | None => false end then 1 else 0)%nat.
Proof.
  unfold rent_row. destruct r as [x|]; [destruct (Py.truthy x)|];
    split; try reflexivity; repeat constructor.
Qed.

Section SinkProperties.
Context `{Builtins}.

(** [X22].  What the sink receives for a record: six metric rows, plus one
    row for a non-zero 1-bedroom rent and one for a non-zero 2-bedroom rent,
    never a 3- or 4-bedroom row; every row carries the same deal identifier,
    free of blanks and commas, the geography of the address and the asset
    type [Multifamily]. *)
Theorem store_om_data_rows om_data rows :
  store_om_data_in_supabase om_data = Some rows ->
  exists address,
    om_data.(OMData.property_summary).(PropertySummary.address) = Some address
    /\ Forall (fun m => m.(InvestorMetric.deal_id) = deal_id_of address
                        /\ m.(InvestorMetric.geography)
                           = extract_geography_from_address address
                        /\ m.(InvestorMetric.asset_type) = "Multifamily"%string
                        /\ (m.(InvestorMetric.unit_type) = None
                            \/ m.(InvestorMetric.unit_type) = Some "1BR"%string
                            \/ m.(InvestorMetric.unit_type) = Some "2BR"%string))
         rows
    /\ no_char " " (deal_id_of address) = true
    /\ no_char "," (deal_id_of address) = true
    /\ length rows
       = (6 + (if Py.truthy (default 0%float om_data.(OMData.unit_rents).(UnitRentData.one_bed))
               then 1 else 0)
            + (if Py.truthy (default 0%float om_data.(OMData.unit_rents).(UnitRentData.two_bed))
               then 1 else 0))%nat.
Proof.
  unfold store_om_data_in_supabase, metrics_to_store.
  destruct supabase as [client|]; [|discriminate].
  destruct (PropertySummary.address (OMData.property_summary om_data)) as [address|];
    [|discriminate].
  cbn. intros E. injection E as <-. exists address. split; [reflexivity|].
  destruct (deal_id_of_clean address) as [Hb Hc].
  pose proof (rent_row_shape (deal_id_of address)
                (extract_geography_from_address address) "1BR"
                (UnitRentData.one_bed (OMData.unit_rents om_data))) as [F1 L1].
  pose proof (rent_row_shape (deal_id_of address)
                (extract_geography_from_address address) "2BR"
                (UnitRentData.two_bed (OMData.unit_rents om_data))) as [F2 L2].
  split; [|split; [exact Hb|split; [exact Hc|]]].
  - repeat (apply List.Forall_cons; [cbn; tauto|]).
    apply List.Forall_app. split.
    + eapply List.Forall_impl; [|exact F1]. cbn. intros m (? & ? & ? & ->). tauto.
    + eapply List.Forall_impl; [|exact F2]. cbn. intros m (? & ? & ? & ->). tauto.
  - cbn [length]. rewrite length_app, L1, L2.
    destruct (UnitRentData.one_bed (OMData.unit_rents om_data)) as [x|],
             (UnitRentData.two_bed (OMData.unit_rents om_data)) as [y|];
      cbn [default]; change (Py.truthy 0%float) with false; reflexivity.
Qed.

(** Nothing reaches the sink exactly when there is no store client or the
    record has no address. *)
Lemma store_om_data_skipped om_data :
  store_om_data_in_supabase om_data = None
  <-> supabase = None
      \/ om_data.(OMData.property_summary).(PropertySummary.address) = None.
Proof.
  unfold store_om_data_in_supabase, metrics_to_store.
  destruct supabase as [client|];
    destruct (PropertySummary.address (OMData.property_summary om_data)) as [a|];
    cbn; split; intros Hx; try discriminate; try tauto;
    destruct Hx as [Hx|Hx]; discriminate Hx.
Qed.

(** [X23].  The market-data endpoint always answers: it echoes the geography,
    its statistics are those of the lists it returns, with counts equal to
    their lengths, and it never substitutes the built-in comparables; without
    a store client both lists are empty. *)
Theorem get_market_data_response geography :
  exists resp,
    get_market_data geography = Ok resp
    /\ resp.(MarketDataResponse.geography) = geography
    /\ calculate_comp_stats resp.(MarketDataResponse.crexi_comps)
       = Ok resp.(MarketDataResponse.crexi_stats)
    /\ calculate_comp_stats resp.(MarketDataResponse.realtor_comps)
       = Ok resp.(MarketDataResponse.realtor_stats)
    /\ resp.(MarketDataResponse.crexi_stats).(CompStats.total_scraped)
       = Z.of_nat (length resp.(MarketDataResponse.crexi_comps))
    /\ resp.(MarketDataResponse.realtor_stats).(CompStats.total_scraped)
       = Z.of_nat (length resp.(MarketDataResponse.realtor_comps))
    /\ (resp.(MarketDataResponse.crexi_comps),
        resp.(MarketDataResponse.realtor_comps))
       = get_supabase_market_data geography "Multifamily"
    /\ (supabase = None ->
        resp.(MarketDataResponse.crexi_comps) = []
        /\ resp.(MarketDataResponse.realtor_comps) = []
        /\ calculate_comp_stats [] = Ok resp.(MarketDataResponse.crexi_stats)).
Proof.
  unfold get_market_data, try_except. cbv zeta.
  pose proof (store_units_absent geography "Multifamily") as Hstore.
  apply List.Forall_app in Hstore as [Hc Hr].
  destruct (units_absent_stats (fun _ => true) _ Hc) as (cs & Ec).
  destruct (units_absent_stats (fun _ => true) _ Hr) as (rs & Er).
  rewrite filter_all in Ec, Er. rewrite Ec, Er. cbn [mbind result_bind].
  eexists. split; [reflexivity|].
  cbn [MarketDataResponse.geography MarketDataResponse.crexi_stats
       MarketDataResponse.realtor_stats MarketDataResponse.crexi_comps
       MarketDataResponse.realtor_comps].
  split; [reflexivity|]. split; [exact Ec|]. split; [exact Er|].
  split; [now apply calculate_comp_stats_counts in Ec|].
  split; [now apply calculate_comp_stats_counts in Er|].
  split; [now destruct (get_supabase_market_data geography "Multifamily")|].
  intros Hs. revert Ec. unfold get_supabase_market_data. rewrite Hs. cbn.
  intros Ec. now repeat split.
Qed.

End SinkProperties.

Lemma store_om_data_rows_witness :
  exists rows address,
    @store_om_data_in_supabase (constant_store []) get_mock_om_data = Some rows
    /\ get_mock_om_data.(OMData.property_summary).(PropertySummary.address) = Some address
    /\ deal_id_of address = "OM_123_Main_St_Tampa_FL"%string
    /\ length rows = 8%nat.
Proof.
  destruct (@store_om_data_in_supabase (constant_store []) get_mock_om_data)
    as [rows|] eqn:E; [|vm_compute in E; discriminate E].
  destruct (@store_om_data_rows (constant_store []) get_mock_om_data rows E)
    as (address & Ha & _ & _ & _ & Hl).
  exists rows, address. split; [reflexivity|]. split; [exact Ha|].
  cbn in Ha. injection Ha as <-. split; [reflexivity|].
  rewrite Hl. reflexivity.
Defined.
